(** * wireguard-go: start-up, daemonization and shutdown of [main]

    A shallow embedding of [main.go] (package [main]) and of the leveled
    logger of package [device], followed by the properties proved about
    them.

    [main] is one long effectful function.  It is embedded as a function from
    a [World] (the arguments, the environment and the answers of the operating
    system and of the other packages) to the list of calls it makes, in order,
    together with the way the process ends. *)

From Stdlib Require Import String Ascii List ZArith Bool Lia.
Import ListNotations.
Local Open Scope string_scope.
Local Open Scope Z_scope.

Set Implicit Arguments.

(** ** Go values *)

(** Go's [error] values.  [strconv.ParseUint] reports a syntax or a range
    error; all other failures come from the operating system or from the
    packages [tun] and [ipc] and carry their message. *)
Inductive error : Type :=
| ErrSyntax (fn num : string)
| ErrRange (fn num : string)
| ErrOther (msg : string).

(** A Go pair [(T, error)] of which exactly one side is meaningful. *)
Inductive result (A : Type) : Type :=
| Ok (a : A)
| Err (e : error).
Arguments Ok {A} a.
Arguments Err {A} e.

(** [*os.File]. [DevNull] is the value [os.Open(os.DevNull)] hands back (the
    caller drops its error); [NewFile fd name] is [os.NewFile(fd, name)];
    [Handle n] is a file made by another package. *)
Inductive File : Type :=
| Stdout
| Stderr
| DevNull
| NewFile (fd : Z) (name : string)
| Handle (n : Z).

(** [tun.Device], as far as [main] uses it: its [Name()] and its [File()]. *)
Record Device : Type := mkDevice {
  Name : result string;
  DeviceFile : File
}.

Inductive Signal : Type := SIGTERM | Interrupt.

(** ** Constants of [main.go] *)

Definition ExitSetupSuccess : Z := 0.
Definition ExitSetupFailed : Z := 1.

Definition ENV_WG_TUN_FD : string := "WG_TUN_FD".
Definition ENV_WG_UAPI_FD : string := "WG_UAPI_FD".
Definition ENV_WG_PROCESS_FOREGROUND : string := "WG_PROCESS_FOREGROUND".

(** ** Package [device]: the leveled logger *)

Module device.

(** Log levels for use with [NewLogger] (an [iota] block). *)
Definition LogLevelSilent : Z := 0.
Definition LogLevelError : Z := 1.
Definition LogLevelVerbose : Z := 2.

(** One argument of a Printf-style call. *)
Inductive arg : Type :=
| AStr (s : string)
| AErr (e : error).

(** What a logging function writes: one line on [os.Stdout], made by a
    [log.Logger] with the given prefix (the flags [Ldate|Ltime] add the
    date and the time, which are not modelled). *)
Record line : Type := mkLine {
  line_prefix : string;
  line_format : string;
  line_args : list arg
}.

(** A value of type [func(format string, args ...any)]: either
    [DiscardLogf] or the [Printf] method of a [log.Logger] on [os.Stdout]. *)
Inductive logf_t : Type :=
| DiscardLogf
| Printf (prefix : string).

(** Calling such a function: the lines that reach [os.Stdout]. *)
Definition call (f : logf_t) (format : string) (args : list arg) : list line :=
  match f with
  | DiscardLogf => []
  | Printf prefix => [mkLine prefix format args]
  end.

Record Logger : Type := mkLogger {
  Verbosef : logf_t;
  Errorf : logf_t
}.

Definition NewLogger (level : Z) (prepend : string) : Logger :=
  let logger := mkLogger DiscardLogf DiscardLogf in
  let logf := fun prefix : string => Printf (prefix ++ ": " ++ prepend) in
  let logger :=
    if level >=? LogLevelVerbose
    then mkLogger (logf "DEBUG") (Errorf logger)
    else logger in
  let logger :=
    if level >=? LogLevelError
    then mkLogger (Verbosef logger) (logf "ERROR")
    else logger in
  logger.

(** A sink is active when it is not [DiscardLogf]. *)
Definition active (f : logf_t) : bool :=
  match f with
  | DiscardLogf => false
  | Printf _ => true
  end.

End device.

(** ** [strconv.ParseUint] *)

(** The function of Go's standard library, in base 10, the only base [main]
    asks for. *)
Module strconv.

Definition digit (c : ascii) : option Z :=
  let n := Z.of_nat (nat_of_ascii c) in
  if (48 <=? n) && (n <=? 57) then Some (n - 48) else None.

(** The digit loop of [ParseUint] in base 10: a character that is not a
    digit is a syntax error; a value that leaves 64 bits ([cutoff]) or
    exceeds [maxVal] is a range error. *)
Fixpoint loop (fn s0 : string) (maxVal : Z) (s : string) (n : Z) : result Z :=
  match s with
  | EmptyString => Ok n
  | String c rest =>
      match digit c with
      | None => Err (ErrSyntax fn s0)
      | Some d =>
          let cutoff := (2 ^ 64 - 1) / 10 + 1 in
          if n >=? cutoff then Err (ErrRange fn s0)
          else
            let n1 := n * 10 + d in
            if n1 >? maxVal then Err (ErrRange fn s0)
            else loop fn s0 maxVal rest n1
      end
  end.

(** [strconv.ParseUint(s, 10, bitSize)]. *)
Definition ParseUint (s : string) (bitSize : Z) : result Z :=
  match s with
  | EmptyString => Err (ErrSyntax "ParseUint" s)
  | _ => loop "ParseUint" s (2 ^ bitSize - 1) s 0
  end.

End strconv.

(** Go's conversions [int(x)] and [uintptr(x)] of a [uint64], on a platform
    whose [int] and [uintptr] have 64 bits. *)
Definition int_of_uint64 (x : Z) : Z :=
  let y := x mod 2 ^ 64 in
  if y <? 2 ^ 63 then y else y - 2 ^ 64.

Definition uintptr_of_uint64 (x : Z) : Z := x mod 2 ^ 64.

(** ** The world [main] runs in *)

(** A configuration connection, as handed out by [Accept]. *)
Definition Conn : Type := Z.

(** [net.Listener]: the answers its [Accept] gives, call after call.  When
    the list is used up, [Accept] waits for ever. *)
Record Listener : Type := mkListener {
  Accepts : list (result Conn)
}.

(** [os.ProcAttr]. *)
Record ProcAttr : Type := mkProcAttr {
  Files : list File;
  Dir : string;
  Env : list string
}.

(** What the [select] at the end of [main] can receive. *)
Inductive TermEvent : Type :=
| from_term (s : Signal)
| from_errs (e : error)
| from_device_Wait.

(** Everything [main] reads and every answer it gets.  The constants
    [Version] (file [version.go]) and [device.DefaultMTU] are not part of the
    files at hand and are taken as given. *)
Record World : Type := mkWorld {
  os_Args : list string;
  os_Getenv : string -> string;
  os_Environ : list string;
  runtime_GOOS : string;
  runtime_GOARCH : string;
  Version : string;
  device_DefaultMTU : Z;
  tun_CreateTUN : string -> Z -> result Device;
  unix_SetNonblock : Z -> bool -> option error;
  tun_CreateTUNFromFile : File -> Z -> result Device;
  ipc_UAPIOpen : string -> result File;
  os_Executable : result string;
  os_StartProcess : string -> list string -> ProcAttr -> result Z;
  ipc_UAPIListen : string -> File -> result Listener;
  select_receives : option TermEvent
}.

(** The calls of [main], in the order it makes them. *)
Inductive event : Type :=
| fmt_Printf (format : string) (args : list string)
| fmt_Fprintln_Stderr (s : string)
| log_Printf (l : device.line)
| call_CreateTUN (name : string) (mtu : Z)
| call_SetNonblock (fd : Z) (nonblocking : bool)
| call_NewFile (fd : Z) (name : string)
| call_CreateTUNFromFile (f : File) (mtu : Z)
| call_Name (d : Device)
| call_NewLogger (level : Z) (prepend : string)
| call_UAPIOpen (name : string)
| call_Open (path : string)
| call_Executable
| call_StartProcess (path : string) (argv : list string) (attr : ProcAttr)
| call_Release (pid : Z)
| call_NewDevice (tdev : Device) (logger : device.Logger)
| call_UAPIListen (name : string) (f : File)
| go_acceptLoop (uapi : Listener)
| call_Notify (sig : Signal)
| call_device_Wait
| received (ev : TermEvent)
| call_uapi_Close
| call_device_Close.

(** ** A monad for [main]: the calls made so far, and how the run goes on *)

Inductive ending (A : Type) : Type :=
| Continue (a : A)      (* the statement is done, with this value *)
| Exit (code : Z)       (* os.Exit(code) *)
| Panic                 (* a run-time panic *)
| Blocked.              (* the goroutine waits for ever *)
Arguments Continue {A} a.
Arguments Exit {A} code.
Arguments Panic {A}.
Arguments Blocked {A}.

Definition M (A : Type) : Type := (list event * ending A)%type.

Definition ret {A} (a : A) : M A := ([], Continue a).

Definition bind {A B} (m : M A) (k : A -> M B) : M B :=
  match m with
  | (t, Continue a) => let (t', e) := k a in ((t ++ t')%list, e)
  | (t, Exit c) => (t, Exit c)
  | (t, Panic) => (t, Panic)
  | (t, Blocked) => (t, Blocked)
  end.

Definition emit (e : event) : M unit := ([e], Continue tt).
Definition os_Exit {A} (code : Z) : M A := ([], Exit code).
Definition panic {A} : M A := ([], Panic).
Definition block {A} : M A := ([], Blocked).

Notation "x <- m ;; k" := (bind m (fun x => k))
  (at level 61, m at next level, right associativity).
Notation "m ;; k" := (bind m (fun _ => k))
  (at level 61, right associativity).

(** A call of one of the logger's functions. *)
Definition logf (f : device.logf_t) (format : string) (args : list device.arg)
  : M unit :=
  (map log_Printf (device.call f format args), Continue tt).

Definition trace {A} (m : M A) : list event := fst m.

(** How the process ends: [main] returning ends it with status 0. *)
Inductive status : Type :=
| Exited (code : Z)
| Panicked
| WaitsForEver.

Definition exit_status (m : M unit) : status :=
  match snd m with
  | Continue _ => Exited 0
  | Exit c => Exited c
  | Panic => Panicked
  | Blocked => WaitsForEver
  end.

(** ** [main.go] *)

(** Go's [==] on strings. *)
Infix "==" := String.eqb (at level 70, no associativity).

Definition os_DevNull : string := "/dev/null".

(** [printUsage]; indexing [os.Args] panics when there is no element 0. *)
Definition printUsage (w : World) : M unit :=
  match os_Args w with
  | [] => panic
  | a0 :: _ => emit (fmt_Printf "Usage: %s [-f/--foreground] INTERFACE-NAME\n" [a0])
  end.

Definition banner : list string :=
  [ "┌──────────────────────────────────────────────────────┐";
    "│                                                      │";
    "│   Running wireguard-go is not required because this  │";
    "│   kernel has first class support for WireGuard. For  │";
    "│   information on installing the kernel module,       │";
    "│   please visit:                                      │";
    "│         https://www.wireguard.com/install/           │";
    "│                                                      │";
    "└──────────────────────────────────────────────────────┘" ].

Definition warning (w : World) : M unit :=
  let goos := runtime_GOOS w in
  if (goos == "linux") || (goos == "freebsd") || (goos == "openbsd") then
    if os_Getenv w ENV_WG_PROCESS_FOREGROUND == "1"
    then ret tt
    else (map fmt_Fprintln_Stderr banner, Continue tt)
  else ret tt.

(** The closure bound to [logLevel] (lines 101-111). *)
Definition logLevel (w : World) : Z :=
  let v := os_Getenv w "LOG_LEVEL" in
  if (v == "verbose") || (v == "debug") then device.LogLevelVerbose
  else if v == "error" then device.LogLevelError
  else if v == "silent" then device.LogLevelSilent
  else device.LogLevelError.

(** The closure that opens the TUN device or uses the supplied descriptor
    (lines 115-135). *)
Definition openTUN (w : World) (interfaceName : string) : M (result Device) :=
  let tunFdStr := os_Getenv w ENV_WG_TUN_FD in
  if tunFdStr == EmptyString then
    emit (call_CreateTUN interfaceName (device_DefaultMTU w)) ;;
    ret (tun_CreateTUN w interfaceName (device_DefaultMTU w))
  else
    match strconv.ParseUint tunFdStr 32 with
    | Err err => ret (Err err)
    | Ok fd =>
        emit (call_SetNonblock (int_of_uint64 fd) true) ;;
        match unix_SetNonblock w (int_of_uint64 fd) true with
        | Some err => ret (Err err)
        | None =>
            emit (call_NewFile (uintptr_of_uint64 fd) EmptyString) ;;
            let file := NewFile (uintptr_of_uint64 fd) EmptyString in
            emit (call_CreateTUNFromFile file (device_DefaultMTU w)) ;;
            ret (tun_CreateTUNFromFile w file (device_DefaultMTU w))
        end
    end.

(** The closure that opens the UAPI file or uses the supplied descriptor
    (lines 158-172). *)
Definition openUAPI (w : World) (interfaceName : string) : M (result File) :=
  let uapiFdStr := os_Getenv w ENV_WG_UAPI_FD in
  if uapiFdStr == EmptyString then
    emit (call_UAPIOpen interfaceName) ;;
    ret (ipc_UAPIOpen w interfaceName)
  else
    match strconv.ParseUint uapiFdStr 32 with
    | Err err => ret (Err err)
    | Ok fd =>
        emit (call_NewFile (uintptr_of_uint64 fd) EmptyString) ;;
        ret (Ok (NewFile (uintptr_of_uint64 fd) EmptyString))
    end.

(** The branch [if !foreground { ... }] that relaunches the process
    (lines 180-224). *)
Definition daemonize (w : World) (logger : device.Logger) (logLevel : Z)
    (tdev : Device) (fileUAPI : File) : M unit :=
  let env := os_Environ w in
  let env := (env ++ [(ENV_WG_TUN_FD ++ "=3")%string])%list in
  let env := (env ++ [(ENV_WG_UAPI_FD ++ "=4")%string])%list in
  let env := (env ++ [(ENV_WG_PROCESS_FOREGROUND ++ "=1")%string])%list in
  files <-
    (if negb (os_Getenv w "LOG_LEVEL" == EmptyString)
        && negb (logLevel =? device.LogLevelSilent)
     then
       emit (call_Open os_DevNull) ;;
       ret (DevNull, Stdout, Stderr)
     else
       emit (call_Open os_DevNull) ;;
       emit (call_Open os_DevNull) ;;
       emit (call_Open os_DevNull) ;;
       ret (DevNull, DevNull, DevNull)) ;;
  let '(files0, files1, files2) := files in
  let attr :=
    {| Files := [ files0;            (* stdin *)
                  files1;            (* stdout *)
                  files2;            (* stderr *)
                  DeviceFile tdev;   (* descriptor 3 *)
                  fileUAPI ];        (* descriptor 4 *)
       Dir := ".";
       Env := env |} in
  emit call_Executable ;;
  match os_Executable w with
  | Err err =>
      logf (device.Errorf logger) "Failed to determine executable: %v"
           [device.AErr err] ;;
      os_Exit ExitSetupFailed
  | Ok path =>
      emit (call_StartProcess path (os_Args w) attr) ;;
      match os_StartProcess w path (os_Args w) attr with
      | Err err =>
          logf (device.Errorf logger) "Failed to daemonize: %v"
               [device.AErr err] ;;
          os_Exit ExitSetupFailed
      | Ok process =>
          emit (call_Release process) ;;
          ret tt
      end
  end.

(** The goroutine started at lines 243-252, seen on its own: each turn
    calls [uapi.Accept()]; a connection is handed to a new goroutine running
    [device.IpcHandle]; on an error the goroutine executes the send
    [errs <- err] and, once the send is through, returns.  The channel
    [errs] (line 232) has no buffer and its one reader is the [select] of
    [main]: the send gets through when the [select] receives from [errs];
    when the [select] takes another case, or none, the goroutine stays in
    the send. *)
Inductive loop_event : Type :=
| call_Accept
| go_IpcHandle (conn : Conn)
| send_errs (err : error).

(** The [select] of [main] receives from [errs]. *)
Definition takes_errs (received : option TermEvent) : bool :=
  match received with
  | Some (from_errs _) => true
  | _ => false
  end.

Fixpoint acceptLoop_from (received : option TermEvent)
    (accepts : list (result Conn)) : list loop_event * ending unit :=
  match accepts with
  | [] => ([call_Accept], Blocked)
  | Ok conn :: rest =>
      let (t, e) := acceptLoop_from received rest in
      (call_Accept :: go_IpcHandle conn :: t, e)
  | Err err :: _ =>
      ([call_Accept; send_errs err],
       if takes_errs received then Continue tt else Blocked)
  end.

Definition acceptLoop (w : World) (uapi : Listener)
  : list loop_event * ending unit :=
  acceptLoop_from (select_receives w) (Accepts uapi).

(** The rest of [main] once the process stays in the foreground
    (lines 228-273). *)
Definition runInPlace (w : World) (interfaceName : string)
    (logger : device.Logger) (tdev : Device) (fileUAPI : File) : M unit :=
  emit (call_NewDevice tdev logger) ;;
  logf (device.Verbosef logger) "Device started" [] ;;
  emit (call_UAPIListen interfaceName fileUAPI) ;;
  match ipc_UAPIListen w interfaceName fileUAPI with
  | Err err =>
      logf (device.Errorf logger) "Failed to listen on uapi socket: %v"
           [device.AErr err] ;;
      os_Exit ExitSetupFailed
  | Ok uapi =>
      emit (go_acceptLoop uapi) ;;
      logf (device.Verbosef logger) "UAPI listener started" [] ;;
      (* wait for program to terminate *)
      emit (call_Notify SIGTERM) ;;
      emit (call_Notify Interrupt) ;;
      emit call_device_Wait ;;
      match select_receives w with
      | None => block
      | Some ev =>
          emit (received ev) ;;
          (* clean up *)
          emit call_uapi_Close ;;
          emit call_device_Close ;;
          logf (device.Verbosef logger) "Shutting down" []
      end
  end.

(** [main] from line 94 on, with [foreground] and [interfaceName] as the
    argument switch has set them. *)
Definition main_from_args (w : World) (foreground : bool)
    (interfaceName : string) : M unit :=
  let foreground :=
    if negb foreground
    then os_Getenv w ENV_WG_PROCESS_FOREGROUND == "1"
    else foreground in
  let logLevel := logLevel w in
  (* open TUN device (or use supplied fd) *)
  r <- openTUN w interfaceName ;;
  interfaceName <-
    match r with
    | Ok tdev =>
        emit (call_Name tdev) ;;
        match Name tdev with
        | Ok realInterfaceName => ret realInterfaceName
        | Err _ => ret interfaceName
        end
    | Err _ => ret interfaceName
    end ;;
  emit (call_NewLogger logLevel ("(" ++ interfaceName ++ ") ")) ;;
  let logger := device.NewLogger logLevel ("(" ++ interfaceName ++ ") ") in
  logf (device.Verbosef logger) "Starting wireguard-go version %s"
       [device.AStr (Version w)] ;;
  match r with
  | Err err =>
      logf (device.Errorf logger) "Failed to create TUN device: %v"
           [device.AErr err] ;;
      os_Exit ExitSetupFailed
  | Ok tdev =>
      (* open UAPI file (or use supplied fd) *)
      r' <- openUAPI w interfaceName ;;
      match r' with
      | Err err =>
          logf (device.Errorf logger) "UAPI listen error: %v"
               [device.AErr err] ;;
          os_Exit ExitSetupFailed
      | Ok fileUAPI =>
          (* daemonize the process *)
          if negb foreground
          then daemonize w logger logLevel tdev fileUAPI
          else runInPlace w interfaceName logger tdev fileUAPI
      end
  end.

Definition version_format : string :=
  "wireguard-go v%s\n\nUserspace WireGuard daemon for %s-%s.\nInformation available at https://www.wireguard.com.\nCopyright (C) Jason A. Donenfeld <Jason@zx2c4.com>.\n".

Definition main (w : World) : M unit :=
  let Args := os_Args w in
  if (length Args =? 2)%nat && (nth 1 Args EmptyString == "--version") then
    emit (fmt_Printf version_format
            [Version w; runtime_GOOS w; runtime_GOARCH w])
  else
    warning w ;;
    if (length Args <? 2)%nat || (3 <? length Args)%nat then
      printUsage w
    else
      let a1 := nth 1 Args EmptyString in
      if (a1 == "-f") || (a1 == "--foreground") then
        if negb (length Args =? 3)%nat
        then printUsage w
        else main_from_args w true (nth 2 Args EmptyString)
      else
        if negb (length Args =? 2)%nat
        then printUsage w
        else main_from_args w false (nth 1 Args EmptyString).

(** ** The environment of a relaunched process *)

(** An entry of the environment block, cut at its first [=]. *)
Fixpoint cut_at_equals (s : string) : option (string * string) :=
  match s with
  | EmptyString => None
  | String c rest =>
      if Ascii.eqb c "="%char then Some (EmptyString, rest)
      else
        match cut_at_equals rest with
        | Some (k, v) => Some (String c k, v)
        | None => None
        end
  end.

(** Go's runtime indexes the environment block once ([syscall.copyenv]) and
    keeps, of several entries with one key, the first; [os.Getenv] answers
    from that index, with the empty string for a key that is absent. *)
Fixpoint lookup_env (envs : list string) (key : string) : string :=
  match envs with
  | [] => EmptyString
  | s :: rest =>
      match cut_at_equals s with
      | Some (k, v) => if k == key then v else lookup_env rest key
      | None => lookup_env rest key
      end
  end.

Definition Getenv_in (envs : list string) (key : string) : string :=
  if key == EmptyString then EmptyString else lookup_env envs key.

(** Some entry of the block has the key. *)
Fixpoint binds (envs : list string) (key : string) : bool :=
  match envs with
  | [] => false
  | s :: rest =>
      match cut_at_equals s with
      | Some (k, _) => (k == key) || binds rest key
      | None => binds rest key
      end
  end.

(** The world of the process that [os.StartProcess(path, argv, attr)]
    starts on the machine of [w]: its arguments are [argv], its environment
    block is [attr.Env], and [os.Getenv] reads that block. *)
Definition child_world (w : World) (argv : list string) (attr : ProcAttr)
  : World :=
  {| os_Args := argv;
     os_Getenv := Getenv_in (Env attr);
     os_Environ := Env attr;
     runtime_GOOS := runtime_GOOS w;
     runtime_GOARCH := runtime_GOARCH w;
     Version := Version w;
     device_DefaultMTU := device_DefaultMTU w;
     tun_CreateTUN := tun_CreateTUN w;
     unix_SetNonblock := unix_SetNonblock w;
     tun_CreateTUNFromFile := tun_CreateTUNFromFile w;
     ipc_UAPIOpen := ipc_UAPIOpen w;
     os_Executable := os_Executable w;
     os_StartProcess := os_StartProcess w;
     ipc_UAPIListen := ipc_UAPIListen w;
     select_receives := select_receives w |}.

(** ** Worlds to run [main] in *)

Definition tun0 : Device := mkDevice (Ok "utun7") (Handle 10).
Definition tun_unnamed : Device := mkDevice (Err (ErrOther "ioctl")) (Handle 10).
Definition tun_adopted : Device := mkDevice (Ok "wg0") (NewFile 3 EmptyString).

Definition env_of (l : list (string * string)) (k : string) : string :=
  match find (fun kv => fst kv == k) l with
  | Some kv => snd kv
  | None => EmptyString
  end.

(** A Linux machine on which every call succeeds and SIGTERM comes first. *)
Definition world_of (args : list string) (env : list (string * string))
    (tdev : Device) : World :=
  {| os_Args := args;
     os_Getenv := env_of env;
     os_Environ := map (fun kv => fst kv ++ "=" ++ snd kv) env;
     runtime_GOOS := "linux";
     runtime_GOARCH := "amd64";
     Version := "0.0.0";
     device_DefaultMTU := 1420;
     tun_CreateTUN := fun _ _ => Ok tdev;
     unix_SetNonblock := fun _ _ => None;
     tun_CreateTUNFromFile := fun _ _ => Ok tdev;
     ipc_UAPIOpen := fun _ => Ok (Handle 11);
     os_Executable := Ok "/usr/bin/wireguard-go";
     os_StartProcess := fun _ _ _ => Ok 4242;
     ipc_UAPIListen := fun _ _ => Ok (mkListener [Ok 1; Ok 2; Err (ErrOther "closed")]);
     select_receives := Some (from_term SIGTERM) |}.

(** ** Vocabulary of the statements *)

(** The arguments pass the switch of lines 70-92, which sets [foreground]
    and [interfaceName]. *)
Inductive invoked (w : World) : bool -> string -> Prop :=
| invoked_plain a0 name :
    os_Args w = [a0; name] ->
    name <> "--version" -> name <> "-f" -> name <> "--foreground" ->
    invoked w false name
| invoked_foreground a0 flag name :
    os_Args w = [a0; flag; name] ->
    flag = "-f" \/ flag = "--foreground" ->
    invoked w true name.

(** The value of [interfaceName] after line 142. *)
Definition final_name (requested : string) (r : result Device) : string :=
  match r with
  | Ok tdev =>
      match Name tdev with
      | Ok realInterfaceName => realInterfaceName
      | Err _ => requested
      end
  | Err _ => requested
  end.

(** The steps of the shutdown: the receive of the [select] and the two
    calls of [Close]. *)
Definition is_teardown (e : event) : bool :=
  match e with
  | received _ | call_uapi_Close | call_device_Close => true
  | _ => false
  end.

(** The steps of the relaunch branch. *)
Definition is_relaunch_step (e : event) : bool :=
  match e with
  | call_Open _ | call_Executable | call_StartProcess _ _ _ | call_Release _ =>
      true
  | _ => false
  end.

(** The steps made before the foreground decision, and the lines printed. *)
Definition is_setup_step (e : event) : bool :=
  match e with
  | fmt_Printf _ _ | fmt_Fprintln_Stderr _ | log_Printf _
  | call_CreateTUN _ _ | call_SetNonblock _ _ | call_NewFile _ _
  | call_CreateTUNFromFile _ _ | call_Name _ | call_NewLogger _ _
  | call_UAPIOpen _ => true
  | _ => false
  end.

(** The connections [Accept] hands out before it fails for the first time,
    and that first failure. *)
Fixpoint until_failure (accepts : list (result Conn))
  : list Conn * option error :=
  match accepts with
  | [] => ([], None)
  | Ok conn :: rest =>
      let (cs, f) := until_failure rest in (conn :: cs, f)
  | Err err :: _ => ([], Some err)
  end.

Definition handlers (t : list loop_event) : list Conn :=
  flat_map (fun e => match e with go_IpcHandle c => [c] | _ => [] end) t.

Definition reports (t : list loop_event) : list error :=
  flat_map (fun e => match e with send_errs err => [err] | _ => [] end) t.

Definition accept_calls (t : list loop_event) : nat :=
  length (filter (fun e => match e with call_Accept => true | _ => false end) t).

Definition setup_only (t : list event) : Prop :=
  Forall (fun e => is_setup_step e = true) t.

(** A usage or version message has been printed. *)
Definition printed (t : list event) : Prop :=
  exists format args, In (fmt_Printf format args) t.

(** The redirection test of line 186. *)
Definition keeps_streams (w : World) (lvl : Z) : bool :=
  negb (os_Getenv w "LOG_LEVEL" == EmptyString)
  && negb (lvl =? device.LogLevelSilent).

(** What a step of the relaunch branch can be. *)
Definition relaunch_step (w : World) (lvl : Z) (tdev : Device)
    (fileUAPI : File) (e : event) : Prop :=
  match e with
  | log_Printf _ | call_Open _ | call_Executable | call_Release _ => True
  | call_StartProcess path argv attr =>
      os_Executable w = Ok path
      /\ argv = os_Args w
      /\ Files attr
         = [ DevNull;
             if keeps_streams w lvl then Stdout else DevNull;
             if keeps_streams w lvl then Stderr else DevNull;
             DeviceFile tdev;
             fileUAPI ]
      /\ Dir attr = "."
      /\ Env attr
         = (os_Environ w
            ++ ["WG_TUN_FD=3"; "WG_UAPI_FD=4"; "WG_PROCESS_FOREGROUND=1"])%list
  | _ => False
  end.

(** The steps of the foreground branch. *)
Definition is_run_step (e : event) : bool :=
  match e with
  | log_Printf _ | call_NewDevice _ _ | call_UAPIListen _ _ | go_acceptLoop _
  | call_Notify _ | call_device_Wait | received _ | call_uapi_Close
  | call_device_Close => true
  | _ => false
  end.

(** What an event must look like when [name] is the interface name in use:
    the logger is built with the label made of [name], the lines carry it,
    and the UAPI socket is opened and listened on under [name]. *)
Definition labelled (w : World) (name : string) (e : event) : Prop :=
  match e with
  | call_NewLogger lvl prepend =>
      lvl = logLevel w /\ prepend = "(" ++ name ++ ") "
  | call_UAPIOpen n => n = name
  | call_UAPIListen n _ => n = name
  | call_NewDevice _ logger =>
      logger = device.NewLogger (logLevel w) ("(" ++ name ++ ") ")
  | log_Printf l =>
      device.line_prefix l = "DEBUG: (" ++ name ++ ") "
      \/ device.line_prefix l = "ERROR: (" ++ name ++ ") "
  | call_CreateTUN _ _ | call_Name _ => False
  | _ => True
  end.

(** What a relaunched child of [wireguard-go wg0] finds. *)
Definition world_child : World :=
  world_of ["wireguard-go"; "wg0"]
    [("WG_TUN_FD", "3"); ("WG_UAPI_FD", "4"); ("WG_PROCESS_FOREGROUND", "1")]
    tun_adopted.

(** [wireguard-go wg0] started with LOG_LEVEL=error. *)
Definition world_error_level : World :=
  world_of ["wireguard-go"; "wg0"] [("LOG_LEVEL", "error")] tun0.

Definition attr_error_level : ProcAttr :=
  {| Files := [DevNull; Stdout; Stderr; Handle 10; Handle 11];
     Dir := ".";
     Env := ["LOG_LEVEL=error"; "WG_TUN_FD=3"; "WG_UAPI_FD=4";
             "WG_PROCESS_FOREGROUND=1"] |}.

(** [wireguard-go wg0] started with WG_TUN_FD=abc. *)
Definition world_malformed : World :=
  world_of ["wireguard-go"; "wg0"] [("WG_TUN_FD", "abc")] tun_adopted.

(** The process attributes and the steps of the relaunch branch
    (lines 181-222), as [daemonize] builds them. *)
Definition launch_attr (w : World) (lvl : Z) (tdev : Device)
    (fileUAPI : File) : ProcAttr :=
  {| Files := [ DevNull;
                if keeps_streams w lvl then Stdout else DevNull;
                if keeps_streams w lvl then Stderr else DevNull;
                DeviceFile tdev;
                fileUAPI ];
     Dir := ".";
     Env := (os_Environ w
             ++ ["WG_TUN_FD=3"; "WG_UAPI_FD=4"; "WG_PROCESS_FOREGROUND=1"])%list |}.

Definition launch_opens (w : World) (lvl : Z) : list event :=
  if keeps_streams w lvl
  then [call_Open os_DevNull]
  else [call_Open os_DevNull; call_Open os_DevNull; call_Open os_DevNull].

(** The steps that belong to the engine and its listener. *)
Definition is_engine_step (e : event) : bool :=
  match e with
  | call_NewDevice _ _ | call_UAPIListen _ _ | go_acceptLoop _
  | call_Notify _ | call_device_Wait | received _ | call_uapi_Close
  | call_device_Close => true
  | _ => false
  end.

(** The calls that create a tunnel interface or a UAPI socket. *)
Definition is_creation (e : event) : bool :=
  match e with
  | call_CreateTUN _ _ | call_UAPIOpen _ => true
  | _ => false
  end.

Definition is_log_line (e : event) : bool :=
  match e with
  | log_Printf _ => true
  | _ => false
  end.

Definition is_StartProcess (e : event) : bool :=
  match e with
  | call_StartProcess _ _ _ => true
  | _ => false
  end.

(** The descriptor an event hands to the operating system, if any. *)
Definition descriptor_of (e : event) : option Z :=
  match e with
  | call_SetNonblock fd _ | call_NewFile fd _ => Some fd
  | _ => None
  end.

(** The value of [foreground] after line 97. *)
Definition stays_in_foreground (w : World) (fg : bool) : bool :=
  if negb fg then os_Getenv w ENV_WG_PROCESS_FOREGROUND == "1" else fg.

(** The calls of the two resolvers. *)
Definition is_resolver_step (e : event) : bool :=
  match e with
  | call_CreateTUN _ _ | call_SetNonblock _ _ | call_NewFile _ _
  | call_CreateTUNFromFile _ _ | call_UAPIOpen _ => true
  | _ => false
  end.

Definition is_stderr_line (e : event) : bool :=
  match e with
  | fmt_Fprintln_Stderr _ => true
  | _ => false
  end.

Definition usage_format : string :=
  "Usage: %s [-f/--foreground] INTERFACE-NAME\n".

Definition is_UAPIOpen (e : event) : bool :=
  match e with
  | call_UAPIOpen _ => true
  | _ => false
  end.

(** A tunnel that cannot be created. *)
Definition world_no_tun : World :=
  {| os_Args := ["wireguard-go"; "-f"; "wg0"];
     os_Getenv := env_of [("LOG_LEVEL", "debug")];
     os_Environ := ["LOG_LEVEL=debug"];
     runtime_GOOS := "linux";
     runtime_GOARCH := "amd64";
     Version := "0.0.0";
     device_DefaultMTU := 1420;
     tun_CreateTUN := fun _ _ => Err (ErrOther "operation not permitted");
     unix_SetNonblock := fun _ _ => None;
     tun_CreateTUNFromFile := fun _ _ => Ok tun0;
     ipc_UAPIOpen := fun _ => Ok (Handle 11);
     os_Executable := Ok "/usr/bin/wireguard-go";
     os_StartProcess := fun _ _ _ => Ok 4242;
     ipc_UAPIListen := fun _ _ => Ok (mkListener []);
     select_receives := None |}.

(** A UAPI socket that cannot be listened on. *)
Definition world_no_listen : World :=
  {| os_Args := ["wireguard-go"; "-f"; "wg0"];
     os_Getenv := env_of [];
     os_Environ := [];
     runtime_GOOS := "linux";
     runtime_GOARCH := "amd64";
     Version := "0.0.0";
     device_DefaultMTU := 1420;
     tun_CreateTUN := fun _ _ => Ok tun0;
     unix_SetNonblock := fun _ _ => None;
     tun_CreateTUNFromFile := fun _ _ => Ok tun0;
     ipc_UAPIOpen := fun _ => Ok (Handle 11);
     os_Executable := Ok "/usr/bin/wireguard-go";
     os_StartProcess := fun _ _ _ => Ok 4242;
     ipc_UAPIListen := fun _ _ => Err (ErrOther "address already in use");
     select_receives := None |}.

(** A relaunch that fails. *)
Definition world_no_start : World :=
  {| os_Args := ["wireguard-go"; "wg0"];
     os_Getenv := env_of [];
     os_Environ := [];
     runtime_GOOS := "linux";
     runtime_GOARCH := "amd64";
     Version := "0.0.0";
     device_DefaultMTU := 1420;
     tun_CreateTUN := fun _ _ => Ok tun0;
     unix_SetNonblock := fun _ _ => None;
     tun_CreateTUNFromFile := fun _ _ => Ok tun0;
     ipc_UAPIOpen := fun _ => Ok (Handle 11);
     os_Executable := Ok "/usr/bin/wireguard-go";
     os_StartProcess := fun _ _ _ => Err (ErrOther "fork failed");
     ipc_UAPIListen := fun _ _ => Ok (mkListener []);
     select_receives := None |}.

(** The descriptor an event hands over, if any, fits 32 bits. *)
Definition descriptor_in_range (e : event) : Prop :=
  match descriptor_of e with
  | Some fd => 0 <= fd <= 2 ^ 32 - 1
  | None => True
  end.

(** [wireguard-go wg0] started with WG_PROCESS_FOREGROUND=0 in the
    environment, the attributes it relaunches with, and the world of the
    child. *)
Definition world_marker_0 : World :=
  world_of ["wireguard-go"; "wg0"] [("WG_PROCESS_FOREGROUND", "0")] tun0.

Definition attr_marker_0 : ProcAttr :=
  {| Files := [DevNull; DevNull; DevNull; Handle 10; Handle 11];
     Dir := ".";
     Env := ["WG_PROCESS_FOREGROUND=0"; "WG_TUN_FD=3"; "WG_UAPI_FD=4";
             "WG_PROCESS_FOREGROUND=1"] |}.

Definition child_marker_0 : World :=
  child_world world_marker_0 ["wireguard-go"; "wg0"] attr_marker_0.

Definition attr_child_marker_0 : ProcAttr :=
  {| Files := [DevNull; DevNull; DevNull; Handle 10; NewFile 4 EmptyString];
     Dir := ".";
     Env := ["WG_PROCESS_FOREGROUND=0"; "WG_TUN_FD=3"; "WG_UAPI_FD=4";
             "WG_PROCESS_FOREGROUND=1"; "WG_TUN_FD=3"; "WG_UAPI_FD=4";
             "WG_PROCESS_FOREGROUND=1"] |}.


(** * Properties *)

(** ** Reasoning about runs *)

Section Monad.
Context {A B : Type}.

Lemma trace_bind (m : M A) (k : A -> M B) :
  trace (bind m k)
  = (trace m ++ match snd m with
                | Continue a => trace (k a)
                | _ => []
                end)%list.
Proof.
  destruct m as [t [a| | |]]; simpl;
    [destruct (k a); reflexivity | now rewrite app_nil_r ..].
Qed.

Lemma snd_bind (m : M A) (k : A -> M B) :
  snd (bind m k)
  = match snd m with
    | Continue a => snd (k a)
    | Exit c => Exit c
    | Panic => Panic
    | Blocked => Blocked
    end.
Proof.
  destruct m as [t [a| | |]]; simpl; [destruct (k a)|..]; reflexivity.
Qed.
End Monad.

Lemma M_ext {A} (m m' : M A) : fst m = fst m' -> snd m = snd m' -> m = m'.
Proof. destruct m, m'; simpl; intros; subst; reflexivity. Qed.

Lemma fst_bind {A B} (m : M A) (k : A -> M B) :
  fst (bind m k)
  = (fst m ++ match snd m with
              | Continue a => fst (k a)
              | _ => []
              end)%list.
Proof. apply trace_bind. Qed.

Arguments bind {A B} m k : simpl never.
Arguments String.append s1 s2 : simpl never.

(** Runs a sequence of steps symbolically. *)
Ltac run_m := unfold trace; repeat (rewrite ?fst_bind, ?snd_bind; simpl).

(** ** The log-level selector *)

(** C7.  The log-level selector maps the values "verbose" and "debug" of
    LOG_LEVEL to the verbose level, "error" to the error level and "silent"
    to the silent level; every other value, the empty string of an unset
    variable included, gives the error level. *)
Theorem logLevel_selector (w : World) :
  let v := os_Getenv w "LOG_LEVEL" in
  (v = "verbose" \/ v = "debug" -> logLevel w = device.LogLevelVerbose) /\
  (v = "error" -> logLevel w = device.LogLevelError) /\
  (v = "silent" -> logLevel w = device.LogLevelSilent) /\
  (v <> "verbose" -> v <> "debug" -> v <> "error" -> v <> "silent" ->
   logLevel w = device.LogLevelError) /\
  (v = EmptyString -> logLevel w = device.LogLevelError).
Proof.
  unfold logLevel. cbv zeta.
  repeat split.
  - intros [-> | ->]; reflexivity.
  - intros ->; reflexivity.
  - intros ->; reflexivity.
  - intros Hv Hd He Hs.
    apply String.eqb_neq in Hv, Hd, He, Hs.
    rewrite Hv, Hd, He, Hs. reflexivity.
  - intros ->; reflexivity.
Qed.

Lemma logLevel_selector_witness :
  logLevel (world_of ["wireguard-go"; "wg0"] [("LOG_LEVEL", "debug")] tun0)
  = device.LogLevelVerbose
  /\ logLevel (world_of ["wireguard-go"; "wg0"] [("LOG_LEVEL", "info")] tun0)
  = device.LogLevelError.
Proof.
  split.
  - apply (proj1 (logLevel_selector
             (world_of ["wireguard-go"; "wg0"] [("LOG_LEVEL", "debug")] tun0))).
    right; reflexivity.
  - apply (proj1 (proj2 (proj2 (proj2 (logLevel_selector
             (world_of ["wireguard-go"; "wg0"] [("LOG_LEVEL", "info")] tun0))))));
      simpl; discriminate.
Defined.

(** The level is always one of the three constants. *)
Lemma logLevel_range (w : World) :
  logLevel w = device.LogLevelVerbose \/
  logLevel w = device.LogLevelError \/
  logLevel w = device.LogLevelSilent.
Proof.
  unfold logLevel; cbv zeta.
  destruct (_ || _); [now left|].
  destruct (_ == "error"); [now right; left|].
  destruct (_ == "silent"); [now right; right|now right; left].
Qed.

(** ** The leveled logger *)

(** C8.  A logger made at the silent level has two inert sinks, at the error
    level only [Errorf] writes, at the verbose level both write: a sink is
    active exactly when the level is at or above its severity, and an inert
    sink is [DiscardLogf], a call of which writes nothing. *)
Theorem NewLogger_sinks (level : Z) (prepend : string) :
  let l := device.NewLogger level prepend in
  device.Verbosef l
    = (if level >=? device.LogLevelVerbose
       then device.Printf ("DEBUG: " ++ prepend) else device.DiscardLogf)
  /\ device.Errorf l
    = (if level >=? device.LogLevelError
       then device.Printf ("ERROR: " ++ prepend) else device.DiscardLogf)
  /\ device.active (device.Verbosef l) = (level >=? device.LogLevelVerbose)
  /\ device.active (device.Errorf l) = (level >=? device.LogLevelError)
  /\ device.NewLogger device.LogLevelSilent prepend
    = device.mkLogger device.DiscardLogf device.DiscardLogf
  /\ device.NewLogger device.LogLevelError prepend
    = device.mkLogger device.DiscardLogf (device.Printf ("ERROR: " ++ prepend))
  /\ device.NewLogger device.LogLevelVerbose prepend
    = device.mkLogger (device.Printf ("DEBUG: " ++ prepend))
                      (device.Printf ("ERROR: " ++ prepend))
  /\ (forall format args,
        device.call device.DiscardLogf format args = []
        /\ logf device.DiscardLogf format args = ret tt)
  /\ (forall prefix format args,
        device.call (device.Printf prefix) format args
        = [device.mkLine prefix format args]).
Proof.
  unfold device.NewLogger, device.LogLevelVerbose, device.LogLevelError,
    device.LogLevelSilent.
  cbv zeta.
  destruct (level >=? 2) eqn:Hv; destruct (level >=? 1) eqn:He;
    simpl; repeat split; try reflexivity; lia.
Qed.

(** ** The accept loop *)

(** C9, as the code has it.  The accept loop starts one handler for each
    connection accepted, in the order of acceptance, and nothing else: the
    handlers started are exactly the connections accepted.  When [Accept]
    fails the loop stops accepting and executes the send of that error on
    [errs] once, as its last step, having called [Accept] once per
    connection and once for the failure; it returns when the [select] of
    [main] receives from [errs], and stays in the send when the [select]
    takes another case or none.  As long as [Accept] does not fail the loop
    sends nothing and goes on accepting. *)
Theorem acceptLoop_dispatch (w : World) (uapi : Listener) :
  let (t, e) := acceptLoop w uapi in
  let (conns, failure) := until_failure (Accepts uapi) in
  t = (flat_map (fun c => [call_Accept; go_IpcHandle c]) conns
       ++ call_Accept
          :: match failure with Some err => [send_errs err] | None => [] end)%list
  /\ handlers t = conns
  /\ length (handlers t) = length conns
  /\ accept_calls t = S (length conns)
  /\ match failure with
     | Some err =>
         reports t = [err]
         /\ e = (if takes_errs (select_receives w)
                 then Continue tt else Blocked)
     | None => reports t = [] /\ e = Blocked
     end.
Proof.
  unfold acceptLoop.
  induction (Accepts uapi) as [|[conn|err] rest IH]; simpl.
  - repeat split; reflexivity.
  - destruct (acceptLoop_from (select_receives w) rest) as [t e].
    destruct (until_failure rest) as [conns failure].
    destruct IH as (Ht & Hh & Hl & Ha & Hf).
    unfold handlers, reports, accept_calls in *. simpl.
    repeat split.
    + now rewrite Ht.
    + now rewrite Hh.
    + now rewrite Hl.
    + now rewrite Ha.
    + exact Hf.
  - repeat split; reflexivity.
Qed.

(** In a foreground run in which SIGTERM comes first, the accept loop that
    [main] has started meets the failure of [Accept], executes the send and
    stays in it: the error is not received by the [select] and the loop does
    not return. *)
Lemma acceptLoop_blocked_in_send :
  In (go_acceptLoop (mkListener [Ok 1; Ok 2; Err (ErrOther "closed")]))
     (trace (main (world_of ["wireguard-go"; "-f"; "wg0"] [] tun0)))
  /\ In (received (from_term SIGTERM))
        (trace (main (world_of ["wireguard-go"; "-f"; "wg0"] [] tun0)))
  /\ acceptLoop (world_of ["wireguard-go"; "-f"; "wg0"] [] tun0)
       (mkListener [Ok 1; Ok 2; Err (ErrOther "closed")])
     = ([ call_Accept; go_IpcHandle 1; call_Accept; go_IpcHandle 2;
          call_Accept; send_errs (ErrOther "closed") ],
        Blocked)
  /\ snd (acceptLoop (world_of ["wireguard-go"; "-f"; "wg0"] [] tun0)
            (mkListener [Ok 1; Ok 2; Err (ErrOther "closed")]))
     <> Continue tt.
Proof.
  split; [vm_compute; intuition|]. split; [vm_compute; intuition|].
  split; [reflexivity|]. discriminate.
Qed.

(** ** The two resolvers *)

Example ParseUint_3 : strconv.ParseUint "3" 32 = Ok 3.
Proof. reflexivity. Qed.

Example ParseUint_max : strconv.ParseUint "4294967295" 32 = Ok 4294967295.
Proof. reflexivity. Qed.

Example ParseUint_abc :
  strconv.ParseUint "abc" 32 = Err (ErrSyntax "ParseUint" "abc").
Proof. reflexivity. Qed.

Example ParseUint_signed :
  strconv.ParseUint "+3" 32 = Err (ErrSyntax "ParseUint" "+3").
Proof. reflexivity. Qed.

Example ParseUint_too_large :
  strconv.ParseUint "4294967296" 32 = Err (ErrRange "ParseUint" "4294967296").
Proof. reflexivity. Qed.

Lemma ParseUint_loop_range fn s0 maxVal s n v :
  strconv.loop fn s0 maxVal s n = Ok v -> 0 <= n <= maxVal -> 0 <= v <= maxVal.
Proof.
  revert n. induction s as [|c rest IH]; simpl; intros n H Hn.
  - inversion H; subst; exact Hn.
  - unfold strconv.digit in H.
    destruct (_ && _) eqn:Hd; [|discriminate].
    apply andb_true_iff in Hd. destruct Hd as [H1 H2].
    destruct (n >=? _); [discriminate|].
    destruct (_ >? maxVal) eqn:Hm; [discriminate|].
    apply IH in H; [exact H|]. lia.
Qed.

Lemma ParseUint_range s v :
  strconv.ParseUint s 32 = Ok v -> 0 <= v <= 2 ^ 32 - 1.
Proof.
  unfold strconv.ParseUint. destruct s; [discriminate|].
  intros H. apply ParseUint_loop_range in H; lia.
Qed.

Lemma int_of_parsed s v :
  strconv.ParseUint s 32 = Ok v ->
  int_of_uint64 v = v /\ uintptr_of_uint64 v = v.
Proof.
  intros H. apply ParseUint_range in H.
  unfold int_of_uint64, uintptr_of_uint64. cbv zeta.
  rewrite Z.mod_small by lia.
  split; [|reflexivity].
  destruct (v <? 2 ^ 63) eqn:E; [reflexivity|lia].
Qed.

Lemma openTUN_continues w n : exists r, snd (openTUN w n) = Continue r.
Proof.
  unfold openTUN.
  destruct (_ == _); [eexists; reflexivity|].
  destruct (strconv.ParseUint _ _); [|eexists; reflexivity].
  simpl. destruct (unix_SetNonblock _ _ _); eexists; reflexivity.
Qed.

Lemma openUAPI_continues w n : exists r, snd (openUAPI w n) = Continue r.
Proof.
  unfold openUAPI.
  destruct (_ == _); [eexists; reflexivity|].
  destruct (strconv.ParseUint _ _); eexists; reflexivity.
Qed.

Lemma openTUN_setup w n :
  Forall (fun e => is_setup_step e = true) (trace (openTUN w n)).
Proof.
  unfold openTUN.
  destruct (_ == _); [repeat constructor|].
  destruct (strconv.ParseUint _ _); [|constructor].
  simpl. destruct (unix_SetNonblock _ _ _); repeat constructor.
Qed.

Lemma openUAPI_setup w n :
  Forall (fun e => is_setup_step e = true) (trace (openUAPI w n)).
Proof.
  unfold openUAPI.
  destruct (_ == _); [repeat constructor|].
  destruct (strconv.ParseUint _ _); repeat constructor.
Qed.

Lemma warning_run w :
  snd (warning w) = Continue tt
  /\ Forall (fun e => is_setup_step e = true) (trace (warning w)).
Proof.
  unfold warning. cbv zeta.
  destruct (_ || _); [|split; [reflexivity|constructor]].
  destruct (_ == _); split; try reflexivity; repeat constructor.
Qed.

Lemma logf_run f format args :
  snd (logf f format args) = Continue tt
  /\ Forall (fun e => is_setup_step e = true) (trace (logf f format args)).
Proof.
  destruct f; split; try reflexivity; repeat constructor.
Qed.

(** ** The run of [main], step by step *)

Lemma main_from_args_run w fg n t1 r :
  openTUN w n = (t1, Continue r) ->
  let foreground :=
    if negb fg then os_Getenv w ENV_WG_PROCESS_FOREGROUND == "1" else fg in
  let name := final_name n r in
  let logger := device.NewLogger (logLevel w) ("(" ++ name ++ ") ") in
  let start :=
    (t1 ++ match r with Ok tdev => [call_Name tdev] | Err _ => [] end
        ++ call_NewLogger (logLevel w) ("(" ++ name ++ ") ")
        :: trace (logf (device.Verbosef logger)
                    "Starting wireguard-go version %s"
                    [device.AStr (Version w)]))%list in
  match r with
  | Err err =>
      main_from_args w fg n
      = ((start ++ trace (logf (device.Errorf logger)
                            "Failed to create TUN device: %v"
                            [device.AErr err]))%list,
         Exit ExitSetupFailed)
  | Ok tdev =>
      forall t2 r', openUAPI w name = (t2, Continue r') ->
      match r' with
      | Err err =>
          main_from_args w fg n
          = ((start ++ t2
                ++ trace (logf (device.Errorf logger) "UAPI listen error: %v"
                            [device.AErr err]))%list,
             Exit ExitSetupFailed)
      | Ok fileUAPI =>
          main_from_args w fg n
          = bind ((start ++ t2)%list, Continue tt)
              (fun _ =>
                 if negb foreground
                 then daemonize w logger (logLevel w) tdev fileUAPI
                 else runInPlace w name logger tdev fileUAPI)
      end
  end.
Proof.
  intros H. cbv zeta. unfold main_from_args.
  destruct r as [tdev|err]; simpl final_name.
  - intros t2 r' H2.
    destruct (Name tdev) as [real|e0] eqn:HN; destruct r' as [fileUAPI|err].
    all: apply M_ext.
    all: repeat (rewrite ?fst_bind, ?snd_bind, ?H, ?H2, ?HN; simpl).
    all: repeat rewrite <- app_assoc; simpl; repeat rewrite app_nil_r.
    all: reflexivity.
  - apply M_ext.
    all: repeat (rewrite ?fst_bind, ?snd_bind, ?H; simpl).
    all: repeat rewrite <- app_assoc; simpl; repeat rewrite app_nil_r.
    all: reflexivity.
Qed.

Lemma main_invoked w fg n :
  invoked w fg n ->
  main w = bind (warning w) (fun _ => main_from_args w fg n).
Proof.
  intros H. unfold main. cbv zeta.
  destruct H as [a0 name Ha Hv Hf Hg | a0 flag name Ha Hflag]; rewrite Ha; simpl.
  - apply String.eqb_neq in Hv, Hf, Hg. rewrite Hv, Hf, Hg. reflexivity.
  - destruct Hflag as [-> | ->]; reflexivity.
Qed.

Lemma printUsage_run w :
  setup_only (fst (printUsage w))
  /\ ((snd (printUsage w) = Continue tt /\ printed (fst (printUsage w)))
      \/ snd (printUsage w) = Panic).
Proof.
  unfold printUsage, setup_only, printed.
  destruct (os_Args w); simpl; split; auto.
  left. split; [reflexivity|]. eexists. eexists. left; reflexivity.
Qed.

(** Either the arguments are refused, and [main] only prints, or they pass
    the switch. *)
Lemma main_args w :
  (setup_only (fst (main w))
   /\ ((snd (main w) = Continue tt /\ printed (fst (main w)))
       \/ snd (main w) = Panic))
  \/ exists fg n, invoked w fg n.
Proof.
  assert (U : setup_only (fst (bind (warning w) (fun _ => printUsage w)))
              /\ ((snd (bind (warning w) (fun _ => printUsage w)) = Continue tt
                   /\ printed (fst (bind (warning w) (fun _ => printUsage w))))
                  \/ snd (bind (warning w) (fun _ => printUsage w)) = Panic)).
  { rewrite fst_bind, snd_bind.
    destruct (warning_run w) as [-> Hw].
    destruct (printUsage_run w) as [Hu [[Hc (f & a & Hp)] | Hp]].
    - split; [apply Forall_app; split; assumption|].
      left. split; [exact Hc|]. exists f, a. apply in_or_app. now right.
    - split; [apply Forall_app; split; assumption|]. now right. }
  unfold main. cbv zeta.
  destruct (os_Args w) as [|a0 [|a1 [|a2 [|a3 l]]]] eqn:Ha; simpl;
    try (left; exact U).
  - destruct (a1 == "--version") eqn:Hv.
    + left. split; [repeat constructor|left]. split; [reflexivity|].
      eexists. eexists. left; reflexivity.
    + destruct ((a1 == "-f") || (a1 == "--foreground")) eqn:Hf.
      * left; exact U.
      * right. exists false, a1.
        apply orb_false_iff in Hf. destruct Hf as [H1 H2].
        apply String.eqb_neq in Hv, H1, H2.
        now apply invoked_plain with a0.
  - destruct ((a1 == "-f") || (a1 == "--foreground")) eqn:Hf.
    + right. exists true, a2.
      apply orb_true_iff in Hf.
      apply invoked_foreground with a0 a1; [exact Ha|].
      destruct Hf as [H|H]; apply String.eqb_eq in H; auto.
    + left; exact U.
Qed.

Lemma start_setup (logger : device.Logger) t1 (r : result Device) lvl p format args :
  setup_only t1 ->
  setup_only (t1 ++ match r with Ok tdev => [call_Name tdev] | Err _ => [] end
                 ++ call_NewLogger lvl p
                 :: trace (logf (device.Verbosef logger) format args))%list.
Proof.
  intros H. apply Forall_app; split; [exact H|].
  apply Forall_app; split; [destruct r; repeat constructor|].
  constructor; [reflexivity|]. apply logf_run.
Qed.

(** Either [main] ends before the foreground decision, having made setup
    steps only, or it makes setup steps and then takes one of the two
    branches. *)
Lemma main_setup w :
  (setup_only (fst (main w))
   /\ ((snd (main w) = Continue tt /\ printed (fst (main w)))
       \/ snd (main w) = Panic
       \/ snd (main w) = Exit ExitSetupFailed))
  \/ exists fg n t logger tdev fileUAPI name,
       invoked w fg n /\ setup_only t
       /\ main w
          = bind (t, Continue tt)
              (fun _ =>
                 if negb (if negb fg
                          then os_Getenv w ENV_WG_PROCESS_FOREGROUND == "1"
                          else fg)
                 then daemonize w logger (logLevel w) tdev fileUAPI
                 else runInPlace w name logger tdev fileUAPI).
Proof.
  destruct (main_args w) as [[Ht He] | (fg & n & Hi)].
  { left. split; [exact Ht|]. destruct He; auto. }
  pose proof (main_invoked Hi) as Hm.
  destruct (warning_run w) as [Hws Hwt].
  destruct (openTUN w n) as [t1 e1] eqn:H1.
  destruct (openTUN_continues w n) as [r Hr]. rewrite H1 in Hr. simpl in Hr.
  subst e1.
  pose proof (openTUN_setup w n) as Ht1. rewrite H1 in Ht1. simpl in Ht1.
  pose proof (main_from_args_run w fg n H1) as Hrun. cbv zeta in Hrun.
  destruct r as [tdev|err].
  - destruct (openUAPI w (final_name n (Ok tdev))) as [t2 e2] eqn:H2.
    destruct (openUAPI_continues w (final_name n (Ok tdev))) as [r' Hr'].
    rewrite H2 in Hr'. simpl in Hr'. subst e2.
    pose proof (openUAPI_setup w (final_name n (Ok tdev))) as Ht2.
    rewrite H2 in Ht2. simpl in Ht2.
    specialize (Hrun t2 r' eq_refl).
    destruct r' as [fileUAPI|err].
    + right.
      match type of Hrun with
      | _ = bind (?s, _) _ => remember s as st eqn:Hst
      end.
      exists fg, n, (fst (warning w) ++ st)%list.
      eexists. exists tdev, fileUAPI. eexists.
      split; [exact Hi|]. split.
      * apply Forall_app; split; [exact Hwt|]. subst st.
        apply Forall_app; split; [|exact Ht2].
        now apply (@start_setup _ t1 (Ok tdev)).
      * rewrite Hm, Hrun. apply M_ext;
          repeat (rewrite ?fst_bind, ?snd_bind, ?Hws; simpl);
          [rewrite app_assoc|]; reflexivity.
    + left. rewrite Hm, fst_bind, snd_bind, Hws, Hrun. cbn [fst snd].
      split; [|auto].
      apply Forall_app; split; [exact Hwt|].
      apply Forall_app; split; [now apply (@start_setup _ t1 (Ok tdev))|].
      apply Forall_app; split; [exact Ht2|apply logf_run].
  - left. rewrite Hm, fst_bind, snd_bind, Hws, Hrun. cbn [fst snd].
    split; [|auto].
    apply Forall_app; split; [exact Hwt|].
    apply Forall_app; split;
      [now apply (@start_setup _ t1 (Err err))|apply logf_run].
Qed.

(** ** The two branches *)

Lemma daemonize_run w logger lvl tdev fileUAPI :
  Forall (relaunch_step w lvl tdev fileUAPI)
         (fst (daemonize w logger lvl tdev fileUAPI))
  /\ (snd (daemonize w logger lvl tdev fileUAPI) = Continue tt
      \/ snd (daemonize w logger lvl tdev fileUAPI) = Exit ExitSetupFailed).
Proof.
  unfold daemonize. cbv zeta.
  fold (keeps_streams w lvl).
  destruct (keeps_streams w lvl) eqn:Hk;
    destruct (os_Executable w) as [path|err] eqn:He.
  all: run_m.
  all: try destruct (os_StartProcess w _ _ _) as [pid|err'] eqn:Hs.
  all: run_m.
  all: destruct (device.Errorf logger); simpl.
  all: split; [|auto].
  all: repeat (constructor; simpl; auto).
  all: rewrite ?Hk; repeat split; try reflexivity.
  all: rewrite <- !app_assoc; reflexivity.
Qed.

Lemma runInPlace_steps w name logger tdev fileUAPI :
  Forall (fun e => is_run_step e = true)
         (fst (runInPlace w name logger tdev fileUAPI))
  /\ exists rest,
       fst (runInPlace w name logger tdev fileUAPI)
       = call_NewDevice tdev logger :: rest.
Proof.
  unfold runInPlace.
  destruct (ipc_UAPIListen w name fileUAPI) as [uapi|err];
    [destruct (select_receives w) as [ev|]|].
  all: run_m.
  all: destruct (device.Verbosef logger), (device.Errorf logger); simpl.
  all: split; [repeat constructor|eexists; reflexivity].
Qed.

Lemma runInPlace_teardown w name logger tdev fileUAPI ev :
  select_receives w = Some ev ->
  In call_device_Wait (fst (runInPlace w name logger tdev fileUAPI)) ->
  filter is_teardown (fst (runInPlace w name logger tdev fileUAPI))
  = [received ev; call_uapi_Close; call_device_Close]
  /\ snd (runInPlace w name logger tdev fileUAPI) = Continue tt.
Proof.
  intros Hs. unfold runInPlace. rewrite Hs.
  destruct (ipc_UAPIListen w name fileUAPI) as [uapi|err].
  all: run_m.
  all: destruct (device.Verbosef logger), (device.Errorf logger); simpl.
  all: intros H; try (split; reflexivity).
  all: exfalso; intuition discriminate.
Qed.

Lemma filter_quiet (P sel : event -> bool) t :
  (forall e, P e = true -> sel e = false) ->
  Forall (fun e => P e = true) t -> filter sel t = [].
Proof.
  intros HP H. induction H as [|e t He _ IH]; simpl; [reflexivity|].
  now rewrite (HP e He).
Qed.

Lemma setup_not_teardown e : is_setup_step e = true -> is_teardown e = false.
Proof. destruct e; simpl; congruence. Qed.

Lemma setup_not_relaunch e : is_setup_step e = true -> is_relaunch_step e = false.
Proof. destruct e; simpl; congruence. Qed.

Lemma run_not_relaunch e : is_run_step e = true -> is_relaunch_step e = false.
Proof. destruct e; simpl; congruence. Qed.

(** ** Shutdown *)

(** C1.  When [main] has reached the [select] of the foreground branch and
    one of the three events (a signal on [term], an error on [errs], the
    engine's [Wait] channel) is received, then of the steps receive, close
    of the listener, close of the engine the run makes exactly these three,
    each once and in this order, and the process ends with status 0,
    whichever the event was. *)
Theorem shutdown_once_in_order (w : World) (ev : TermEvent) :
  In call_device_Wait (trace (main w)) ->
  select_receives w = Some ev ->
  filter is_teardown (trace (main w))
  = [received ev; call_uapi_Close; call_device_Close]
  /\ exit_status (main w) = Exited ExitSetupSuccess.
Proof.
  unfold trace, exit_status. intros Hin Hsel.
  destruct (main_setup w)
    as [[Ht _] | (fg & n & t & logger & tdev & fileUAPI & name & _ & Ht & Hm)].
  - exfalso. unfold setup_only in Ht. rewrite Forall_forall in Ht.
    specialize (Ht _ Hin). discriminate.
  - rewrite Hm in *. rewrite fst_bind, snd_bind in *. cbn [fst snd] in *.
    rewrite filter_app, (@filter_quiet is_setup_step is_teardown t setup_not_teardown Ht). simpl.
    apply in_app_or in Hin. destruct Hin as [Hin|Hin].
    { exfalso. unfold setup_only in Ht. rewrite Forall_forall in Ht.
      specialize (Ht _ Hin). discriminate. }
    destruct (negb _).
    + exfalso.
      destruct (daemonize_run w logger (logLevel w) tdev fileUAPI) as [Hd _].
      rewrite Forall_forall in Hd. exact (Hd _ Hin).
    + destruct (runInPlace_teardown w name logger tdev fileUAPI Hsel Hin)
        as [Hf Hs].
      rewrite Hf, Hs. split; reflexivity.
Qed.

Lemma shutdown_once_in_order_witness :
  filter is_teardown
    (trace (main (world_of ["wireguard-go"; "-f"; "wg0"] [] tun0)))
  = [received (from_term SIGTERM); call_uapi_Close; call_device_Close]
  /\ exit_status (main (world_of ["wireguard-go"; "-f"; "wg0"] [] tun0))
     = Exited ExitSetupSuccess.
Proof.
  apply (@shutdown_once_in_order
           (world_of ["wireguard-go"; "-f"; "wg0"] [] tun0)
           (from_term SIGTERM)).
  - vm_compute. intuition.
  - reflexivity.
Defined.

(** ** The relaunch *)

Lemma foreground_of_marker w fg :
  os_Getenv w ENV_WG_PROCESS_FOREGROUND = "1" ->
  (if negb fg then os_Getenv w ENV_WG_PROCESS_FOREGROUND == "1" else fg) = true.
Proof. intros H. destruct fg; [reflexivity|]. simpl. now rewrite H. Qed.

(** Every [os.StartProcess] of a run is the one of the relaunch branch, made
    without the foreground marker. *)
Lemma main_StartProcess w path argv attr :
  In (call_StartProcess path argv attr) (fst (main w)) ->
  os_Getenv w ENV_WG_PROCESS_FOREGROUND <> "1"
  /\ exists tdev fileUAPI,
       relaunch_step w (logLevel w) tdev fileUAPI
         (call_StartProcess path argv attr).
Proof.
  intros Hin.
  destruct (main_setup w)
    as [[Ht _] | (fg & n & t & logger & tdev & fileUAPI & name & _ & Ht & Hm)].
  - exfalso. unfold setup_only in Ht. rewrite Forall_forall in Ht.
    specialize (Ht _ Hin). discriminate.
  - rewrite Hm, fst_bind in Hin. cbn [fst snd] in Hin.
    apply in_app_or in Hin. destruct Hin as [Hin|Hin].
    { exfalso. unfold setup_only in Ht. rewrite Forall_forall in Ht.
      specialize (Ht _ Hin). discriminate. }
    destruct (negb _) eqn:Hfg.
    + split.
      * intros Hmark. rewrite (foreground_of_marker w fg Hmark) in Hfg.
        discriminate.
      * exists tdev, fileUAPI.
        destruct (daemonize_run w logger (logLevel w) tdev fileUAPI) as [Hd _].
        rewrite Forall_forall in Hd. exact (Hd _ Hin).
    + exfalso.
      destruct (runInPlace_steps w name logger tdev fileUAPI) as [Hr _].
      rewrite Forall_forall in Hr. specialize (Hr _ Hin). discriminate.
Qed.

(** When the foreground marker WG_PROCESS_FOREGROUND is "1", with or
    without the flag -f, no step of the relaunch branch is ever made, and
    unless the run stops before the foreground decision (usage or version
    message, panic on an empty argument list, failed setup with status 1) it
    builds the engine in place.  The environment handed to a relaunched child
    is the parent's followed by the two descriptor entries and by the marker
    entry WG_PROCESS_FOREGROUND=1, and the child gets the parent's
    arguments. *)
Theorem foreground_marker_never_relaunches :
  (forall w,
     os_Getenv w ENV_WG_PROCESS_FOREGROUND = "1" ->
     filter is_relaunch_step (trace (main w)) = []
     /\ ((exists tdev logger, In (call_NewDevice tdev logger) (trace (main w)))
         \/ printed (trace (main w))
         \/ exit_status (main w) = Panicked
         \/ exit_status (main w) = Exited ExitSetupFailed))
  /\ (forall w path argv attr,
        In (call_StartProcess path argv attr) (trace (main w)) ->
        argv = os_Args w
        /\ Env attr
           = (os_Environ w
              ++ ["WG_TUN_FD=3"; "WG_UAPI_FD=4"; "WG_PROCESS_FOREGROUND=1"])%list).
Proof.
  unfold trace, exit_status. split.
  - intros w Hmark.
    destruct (main_setup w)
      as [[Ht He] | (fg & n & t & logger & tdev & fileUAPI & name & _ & Ht & Hm)].
    + split; [exact (@filter_quiet _ _ _ setup_not_relaunch Ht)|].
      destruct He as [[Hc Hp] | [Hp | Hx]].
      * right; left; exact Hp.
      * right; right; left. now rewrite Hp.
      * right; right; right. now rewrite Hx.
    + rewrite Hm, fst_bind. cbn [fst snd].
      rewrite (foreground_of_marker w fg Hmark). cbn [negb].
      destruct (runInPlace_steps w name logger tdev fileUAPI)
        as [Hr [rest Hrest]].
      split.
      * rewrite filter_app, (@filter_quiet _ _ _ setup_not_relaunch Ht).
        exact (@filter_quiet _ _ _ run_not_relaunch Hr).
      * left. exists tdev, logger. apply in_or_app. right.
        rewrite Hrest. now left.
  - intros w path argv attr Hin.
    destruct (main_StartProcess w path argv attr Hin)
      as [_ (tdev & fileUAPI & _ & Hargv & _ & _ & Henv)].
    split; assumption.
Qed.

Lemma foreground_marker_never_relaunches_witness :
  filter is_relaunch_step (trace (main world_child)) = []
  /\ ((exists tdev logger,
         In (call_NewDevice tdev logger) (trace (main world_child)))
      \/ printed (trace (main world_child))
      \/ exit_status (main world_child) = Panicked
      \/ exit_status (main world_child) = Exited ExitSetupFailed).
Proof.
  apply (proj1 foreground_marker_never_relaunches world_child).
  reflexivity.
Defined.

(** ** The standard streams of the child *)

Lemma keeps_streams_logLevel w :
  keeps_streams w (logLevel w)
  = negb (os_Getenv w "LOG_LEVEL" == EmptyString)
    && negb (os_Getenv w "LOG_LEVEL" == "silent").
Proof.
  unfold keeps_streams, logLevel. cbv zeta. f_equal. f_equal.
  destruct (os_Getenv w "LOG_LEVEL" == "silent") eqn:Hs.
  - apply String.eqb_eq in Hs. rewrite Hs. reflexivity.
  - destruct (_ || _); [reflexivity|].
    destruct (_ == "error"); reflexivity.
Qed.

(** C4, as the code has it.  In the process attributes of the relaunch the
    child's standard input is always the null device; its standard output
    and standard error are the parent's own streams exactly when LOG_LEVEL
    is set to a non-empty value other than "silent" (so also for "error" and
    for unrecognised values), and the null device otherwise. *)
Theorem relaunch_streams (w : World) path argv attr :
  In (call_StartProcess path argv attr) (trace (main w)) ->
  let v := os_Getenv w "LOG_LEVEL" in
  nth_error (Files attr) 0 = Some DevNull
  /\ (v <> EmptyString -> v <> "silent" ->
      nth_error (Files attr) 1 = Some Stdout
      /\ nth_error (Files attr) 2 = Some Stderr)
  /\ (v = EmptyString \/ v = "silent" ->
      nth_error (Files attr) 1 = Some DevNull
      /\ nth_error (Files attr) 2 = Some DevNull).
Proof.
  intros Hin.
  destruct (main_StartProcess w path argv attr Hin)
    as [_ (tdev & fileUAPI & _ & _ & Hfiles & _ & _)].
  rewrite keeps_streams_logLevel in Hfiles. rewrite Hfiles.
  cbv zeta. split; [reflexivity|]. split.
  - intros He Hs. apply String.eqb_neq in He, Hs. rewrite He, Hs.
    split; reflexivity.
  - intros [H|H]; rewrite H; split; reflexivity.
Qed.

Lemma relaunch_streams_witness :
  nth_error (Files attr_error_level) 1 = Some Stdout
  /\ nth_error (Files attr_error_level) 2 = Some Stderr.
Proof.
  apply (@relaunch_streams world_error_level "/usr/bin/wireguard-go"
           ["wireguard-go"; "wg0"] attr_error_level).
  - vm_compute. intuition.
  - vm_compute. discriminate.
  - vm_compute. discriminate.
Defined.

(** With LOG_LEVEL=error the level is the error level, not the verbose one,
    and yet the child is given the parent's standard output and standard
    error. *)
Lemma relaunch_streams_at_error_level :
  logLevel world_error_level = device.LogLevelError
  /\ logLevel world_error_level <> device.LogLevelVerbose
  /\ In (call_StartProcess "/usr/bin/wireguard-go" ["wireguard-go"; "wg0"]
           attr_error_level)
        (trace (main world_error_level))
  /\ nth_error (Files attr_error_level) 1 = Some Stdout
  /\ nth_error (Files attr_error_level) 2 = Some Stderr.
Proof.
  split; [reflexivity|]. split; [discriminate|].
  split; [vm_compute; intuition|]. split; reflexivity.
Qed.

(** ** The interface name in use *)

Lemma logf_labelled w name format args :
  let logger := device.NewLogger (logLevel w) ("(" ++ name ++ ") ") in
  Forall (labelled w name) (fst (logf (device.Verbosef logger) format args))
  /\ Forall (labelled w name) (fst (logf (device.Errorf logger) format args)).
Proof.
  cbv zeta. unfold device.NewLogger. cbv zeta.
  destruct (logLevel w >=? device.LogLevelVerbose),
           (logLevel w >=? device.LogLevelError); simpl; split.
  all: try apply Forall_nil.
  all: apply Forall_cons; [|apply Forall_nil].
  all: simpl; first [left; reflexivity | right; reflexivity].
Qed.

Lemma openUAPI_labelled w name :
  Forall (labelled w name) (fst (openUAPI w name))
  /\ (os_Getenv w ENV_WG_UAPI_FD = EmptyString ->
      In (call_UAPIOpen name) (fst (openUAPI w name))).
Proof.
  unfold openUAPI. cbv zeta.
  destruct (os_Getenv w ENV_WG_UAPI_FD == EmptyString) eqn:He.
  - run_m. split; [repeat constructor|]. intros _. now left.
  - apply String.eqb_neq in He.
    destruct (strconv.ParseUint _ _); run_m;
      (split; [repeat constructor|intros H; contradiction]).
Qed.

Lemma daemonize_labelled w name tdev fileUAPI :
  Forall (labelled w name)
    (fst (daemonize w (device.NewLogger (logLevel w) ("(" ++ name ++ ") "))
            (logLevel w) tdev fileUAPI)).
Proof.
  pose proof (fun format args => proj2 (logf_labelled w name format args)) as HL.
  cbv zeta in HL.
  unfold daemonize. cbv zeta.
  destruct (_ && _); destruct (os_Executable w) as [path|err].
  all: run_m.
  all: try destruct (os_StartProcess w _ _ _) as [pid|err'].
  all: run_m.
  all: repeat (apply Forall_cons; [exact I|]).
  all: try apply Forall_nil.
  all: rewrite ?app_nil_r; apply HL.
Qed.

Lemma runInPlace_labelled w name tdev fileUAPI :
  Forall (labelled w name)
    (fst (runInPlace w name
            (device.NewLogger (logLevel w) ("(" ++ name ++ ") "))
            tdev fileUAPI)).
Proof.
  pose proof (fun format args => proj1 (logf_labelled w name format args)) as HV.
  pose proof (fun format args => proj2 (logf_labelled w name format args)) as HE.
  cbv zeta in HV, HE.
  unfold runInPlace.
  destruct (ipc_UAPIListen w name fileUAPI) as [uapi|err];
    [destruct (select_receives w) as [ev|]|].
  all: run_m.
  all: repeat first
         [ apply Forall_nil
         | apply Forall_cons; [simpl; auto; fail|]
         | apply Forall_app; split; [first [apply HV | apply HE]|]
         | rewrite app_nil_r; first [apply HV | apply HE]
         | apply HV
         | apply HE ].
Qed.

(** Once the tunnel device is there, the run goes on with the call of
    [Name], the logger labelled with the final name, the start line and the
    UAPI resolver under the final name, and every later step uses that
    name. *)
Lemma main_after_tun w fg n t1 tdev :
  invoked w fg n ->
  openTUN w n = (t1, Continue (Ok tdev)) ->
  let name := final_name n (Ok tdev) in
  let logger := device.NewLogger (logLevel w) ("(" ++ name ++ ") ") in
  exists rest,
    trace (main w)
    = (trace (warning w) ++ t1
       ++ call_Name tdev
       :: call_NewLogger (logLevel w) ("(" ++ name ++ ") ")
       :: trace (logf (device.Verbosef logger)
                   "Starting wireguard-go version %s"
                   [device.AStr (Version w)])
       ++ trace (openUAPI w name) ++ rest)%list
    /\ Forall (labelled w name) rest.
Proof.
  intros Hi H1. cbv zeta.
  pose proof (main_from_args_run w fg n H1) as Hrun. cbv zeta in Hrun.
  destruct (openUAPI w (final_name n (Ok tdev))) as [t2 e2] eqn:H2.
  destruct (openUAPI_continues w (final_name n (Ok tdev))) as [r' Hr'].
  rewrite H2 in Hr'. simpl in Hr'. subst e2.
  specialize (Hrun t2 r' eq_refl).
  destruct (warning_run w) as [Hws _].
  unfold trace. rewrite (main_invoked Hi), fst_bind, Hws.
  destruct r' as [fileUAPI|err]; rewrite Hrun.
  - rewrite fst_bind. cbn [fst snd].
    eexists. split.
    + rewrite <- ?app_assoc. cbn [app]. rewrite <- ?app_assoc. reflexivity.
    + destruct (negb _);
        [apply daemonize_labelled|apply runInPlace_labelled].
  - cbn [fst snd]. eexists. split.
    + rewrite <- ?app_assoc. cbn [app]. rewrite <- ?app_assoc. reflexivity.
    + apply logf_labelled.
Qed.

(** C6.  Without an inherited tunnel descriptor, [main] creates the tunnel
    under the requested name and asks the device for its name; when the
    device answers with [real], the logger is labelled with [real] and the
    UAPI socket is opened and listened on under [real], the requested name
    not being used again. *)
Theorem fresh_tunnel_uses_assigned_name (w : World) fg n tdev real :
  invoked w fg n ->
  os_Getenv w ENV_WG_TUN_FD = EmptyString ->
  tun_CreateTUN w n (device_DefaultMTU w) = Ok tdev ->
  Name tdev = Ok real ->
  let logger := device.NewLogger (logLevel w) ("(" ++ real ++ ") ") in
  exists rest,
    trace (main w)
    = (trace (warning w)
       ++ call_CreateTUN n (device_DefaultMTU w)
       :: call_Name tdev
       :: call_NewLogger (logLevel w) ("(" ++ real ++ ") ")
       :: trace (logf (device.Verbosef logger)
                   "Starting wireguard-go version %s"
                   [device.AStr (Version w)])
       ++ trace (openUAPI w real) ++ rest)%list
    /\ Forall (labelled w real) (trace (openUAPI w real))
    /\ Forall (labelled w real) rest
    /\ (os_Getenv w ENV_WG_UAPI_FD = EmptyString ->
        In (call_UAPIOpen real) (trace (openUAPI w real))).
Proof.
  intros Hi Henv Hc Hn. cbv zeta.
  assert (H1 : openTUN w n
               = ([call_CreateTUN n (device_DefaultMTU w)], Continue (Ok tdev))).
  { unfold openTUN. cbv zeta. rewrite Henv, <- Hc. reflexivity. }
  destruct (main_after_tun Hi H1) as [rest [Ht Hl]].
  unfold final_name in Ht, Hl. rewrite Hn in Ht, Hl.
  exists rest. split; [exact Ht|].
  split; [apply openUAPI_labelled|]. split; [exact Hl|].
  apply openUAPI_labelled.
Qed.

Lemma fresh_tunnel_uses_assigned_name_witness :
  exists rest,
    trace (main (world_of ["wireguard-go"; "wg0"] [] tun0))
    = (trace (warning (world_of ["wireguard-go"; "wg0"] [] tun0))
       ++ call_CreateTUN "wg0" 1420
       :: call_Name tun0
       :: call_NewLogger device.LogLevelError "(utun7) "
       :: call_UAPIOpen "utun7" :: rest)%list.
Proof.
  destruct (@fresh_tunnel_uses_assigned_name
              (world_of ["wireguard-go"; "wg0"] [] tun0)
              false "wg0" tun0 "utun7")
    as [rest [Ht _]].
  - apply invoked_plain with "wireguard-go";
      [reflexivity | discriminate | discriminate | discriminate].
  - reflexivity.
  - reflexivity.
  - reflexivity.
  - exists rest. exact Ht.
Defined.

(** C10.  When the tunnel device has been created or adopted and its
    [Name()] fails, [main] goes on as if nothing had happened: the very next
    steps are the construction of the logger, labelled with the requested
    name, the verbose start line and the UAPI resolver under the requested
    name; no error line is written and the process does not exit there, and
    every later step uses the requested name. *)
Theorem unreadable_name_keeps_requested (w : World) fg n t1 tdev err :
  invoked w fg n ->
  openTUN w n = (t1, Continue (Ok tdev)) ->
  Name tdev = Err err ->
  let logger := device.NewLogger (logLevel w) ("(" ++ n ++ ") ") in
  exists rest,
    trace (main w)
    = (trace (warning w) ++ t1
       ++ call_Name tdev
       :: call_NewLogger (logLevel w) ("(" ++ n ++ ") ")
       :: trace (logf (device.Verbosef logger)
                   "Starting wireguard-go version %s"
                   [device.AStr (Version w)])
       ++ trace (openUAPI w n) ++ rest)%list
    /\ Forall (labelled w n) (trace (openUAPI w n))
    /\ Forall (labelled w n) rest
    /\ (os_Getenv w ENV_WG_UAPI_FD = EmptyString ->
        In (call_UAPIOpen n) (trace (openUAPI w n))).
Proof.
  intros Hi H1 Hn. cbv zeta.
  destruct (main_after_tun Hi H1) as [rest [Ht Hl]].
  unfold final_name in Ht, Hl. rewrite Hn in Ht, Hl.
  exists rest. split; [exact Ht|].
  split; [apply openUAPI_labelled|]. split; [exact Hl|].
  apply openUAPI_labelled.
Qed.

Lemma unreadable_name_keeps_requested_witness :
  exists rest,
    trace (main (world_of ["wireguard-go"; "-f"; "wg0"] [] tun_unnamed))
    = (trace (warning (world_of ["wireguard-go"; "-f"; "wg0"] [] tun_unnamed))
       ++ call_CreateTUN "wg0" 1420
       :: call_Name tun_unnamed
       :: call_NewLogger device.LogLevelError "(wg0) "
       :: call_UAPIOpen "wg0" :: rest)%list.
Proof.
  destruct (@unreadable_name_keeps_requested
              (world_of ["wireguard-go"; "-f"; "wg0"] [] tun_unnamed)
              true "wg0" [call_CreateTUN "wg0" 1420] tun_unnamed
              (ErrOther "ioctl"))
    as [rest [Ht _]].
  - apply invoked_foreground with "wireguard-go" "-f";
      [reflexivity | left; reflexivity].
  - reflexivity.
  - reflexivity.
  - exists rest. exact Ht.
Defined.

(** ** Inherited descriptors *)

Lemma ParseUint_Ok_nonempty s v :
  strconv.ParseUint s 32 = Ok v -> (s == EmptyString) = false.
Proof. destruct s; [discriminate|reflexivity]. Qed.

(** A character that is not a decimal digit makes [ParseUint] fail. *)
Lemma ParseUint_loop_non_digit fn s0 maxVal s n c :
  In c (list_ascii_of_string s) -> strconv.digit c = None ->
  exists e, strconv.loop fn s0 maxVal s n = Err e.
Proof.
  revert n. induction s as [|c' rest IH]; simpl; intros n Hin Hc.
  - contradiction.
  - destruct Hin as [->|Hin].
    + rewrite Hc. eexists; reflexivity.
    + destruct (strconv.digit c'); [|eexists; reflexivity].
      destruct (n >=? _); [eexists; reflexivity|].
      destruct (_ >? maxVal); [eexists; reflexivity|].
      now apply IH.
Qed.

Lemma ParseUint_non_digit s c :
  In c (list_ascii_of_string s) -> strconv.digit c = None ->
  exists e, strconv.ParseUint s 32 = Err e.
Proof.
  intros Hin Hc. unfold strconv.ParseUint.
  destruct s; [eexists; reflexivity|].
  now apply ParseUint_loop_non_digit with c.
Qed.

(** C3, as the code has it.  An inherited tunnel descriptor that parses is
    marked non-blocking first, and only when that has succeeded is it wrapped
    in a file and turned into a device; an inherited UAPI descriptor that
    parses is wrapped in a file at once, without being marked
    non-blocking. *)
Theorem adopted_descriptors (w : World) (name : string) :
  (forall fd,
     strconv.ParseUint (os_Getenv w ENV_WG_TUN_FD) 32 = Ok fd ->
     openTUN w name
     = match unix_SetNonblock w fd true with
       | None =>
           ([ call_SetNonblock fd true;
              call_NewFile fd EmptyString;
              call_CreateTUNFromFile (NewFile fd EmptyString)
                (device_DefaultMTU w) ],
            Continue (tun_CreateTUNFromFile w (NewFile fd EmptyString)
                        (device_DefaultMTU w)))
       | Some err => ([call_SetNonblock fd true], Continue (Err err))
       end)
  /\ (forall fd,
        strconv.ParseUint (os_Getenv w ENV_WG_UAPI_FD) 32 = Ok fd ->
        openUAPI w name
        = ([call_NewFile fd EmptyString],
           Continue (Ok (NewFile fd EmptyString)))).
Proof.
  split; intros fd H.
  - unfold openTUN. cbv zeta.
    rewrite (ParseUint_Ok_nonempty _ H), H.
    destruct (int_of_parsed _ H) as [-> ->].
    destruct (unix_SetNonblock w fd true); reflexivity.
  - unfold openUAPI. cbv zeta.
    rewrite (ParseUint_Ok_nonempty _ H), H.
    destruct (int_of_parsed _ H) as [_ ->].
    reflexivity.
Qed.

Lemma adopted_descriptors_witness :
  openTUN world_child "wg0"
  = ([ call_SetNonblock 3 true; call_NewFile 3 EmptyString;
       call_CreateTUNFromFile (NewFile 3 EmptyString) 1420 ],
     Continue (Ok tun_adopted))
  /\ openUAPI world_child "wg0"
     = ([call_NewFile 4 EmptyString], Continue (Ok (NewFile 4 EmptyString))).
Proof.
  split.
  - apply (proj1 (adopted_descriptors world_child "wg0") 3). reflexivity.
  - apply (proj2 (adopted_descriptors world_child "wg0") 4). reflexivity.
Defined.

(** The child of a relaunch is handed the UAPI socket as descriptor 4: the
    string parses, the descriptor is wrapped in a file, and nowhere in the
    run is it marked non-blocking. *)
Lemma uapi_descriptor_not_marked_nonblocking :
  strconv.ParseUint (os_Getenv world_child ENV_WG_UAPI_FD) 32 = Ok 4
  /\ In (call_NewFile 4 EmptyString) (trace (main world_child))
  /\ forall b, ~ In (call_SetNonblock 4 b) (trace (main world_child)).
Proof.
  split; [reflexivity|]. split; [vm_compute; intuition|].
  intros b H. vm_compute in H.
  repeat (destruct H as [H|H]; [discriminate H|]). exact H.
Qed.

(** C5.  When the string given for an inherited descriptor (the tunnel's or
    the UAPI socket's) is there but does not parse as an unsigned integer,
    the resolver concerned returns that error without making a single call,
    so that nothing is acquired from the descriptor, and the process ends
    with status 1. *)
Theorem malformed_descriptor (w : World) fg n var e :
  invoked w fg n ->
  var = ENV_WG_TUN_FD \/ var = ENV_WG_UAPI_FD ->
  os_Getenv w var <> EmptyString ->
  strconv.ParseUint (os_Getenv w var) 32 = Err e ->
  (var = ENV_WG_TUN_FD -> openTUN w n = ([], Continue (Err e)))
  /\ (var = ENV_WG_UAPI_FD ->
      forall name, openUAPI w name = ([], Continue (Err e)))
  /\ exit_status (main w) = Exited ExitSetupFailed.
Proof.
  intros Hi Hvar Hne Hp.
  apply String.eqb_neq in Hne.
  assert (HT : var = ENV_WG_TUN_FD -> openTUN w n = ([], Continue (Err e))).
  { intros ->. unfold openTUN. cbv zeta. rewrite Hne, Hp. reflexivity. }
  assert (HU : var = ENV_WG_UAPI_FD ->
               forall name, openUAPI w name = ([], Continue (Err e))).
  { intros -> name. unfold openUAPI. cbv zeta. rewrite Hne, Hp. reflexivity. }
  split; [exact HT|]. split; [exact HU|].
  unfold exit_status.
  destruct (warning_run w) as [Hws _].
  rewrite (main_invoked Hi), snd_bind, Hws.
  destruct (openTUN w n) as [t1 e1] eqn:H1.
  destruct (openTUN_continues w n) as [r Hr]. rewrite H1 in Hr. simpl in Hr.
  subst e1.
  pose proof (main_from_args_run w fg n H1) as Hrun. cbv zeta in Hrun.
  destruct r as [tdev|err]; [|rewrite Hrun; reflexivity].
  destruct Hvar as [Hv|Hv].
  - specialize (HT Hv). congruence.
  - specialize (Hrun [] (Err e) (HU Hv _)). cbv beta iota in Hrun.
    rewrite Hrun. reflexivity.
Qed.

Lemma malformed_descriptor_witness :
  openTUN world_malformed "wg0"
  = ([], Continue (Err (ErrSyntax "ParseUint" "abc")))
  /\ exit_status (main world_malformed) = Exited ExitSetupFailed.
Proof.
  destruct (@malformed_descriptor world_malformed false "wg0" ENV_WG_TUN_FD
              (ErrSyntax "ParseUint" "abc"))
    as (HT & _ & Hx).
  - apply invoked_plain with "wireguard-go";
      [reflexivity | discriminate | discriminate | discriminate].
  - left; reflexivity.
  - vm_compute; discriminate.
  - reflexivity.
  - split; [exact (HT eq_refl) | exact Hx].
Defined.

(** * Further properties of [main] *)

(** ** The whole run *)

(** The run of [main] when the arguments pass the switch: the resolvers'
    answers decide between two failures and the two branches. *)
Lemma main_shape w fg n :
  invoked w fg n ->
  exists t1 r,
    openTUN w n = (t1, Continue r)
    /\ let name := final_name n r in
       let logger := device.NewLogger (logLevel w) ("(" ++ name ++ ") ") in
       let start :=
         (trace (warning w) ++ t1
          ++ match r with Ok tdev => [call_Name tdev] | Err _ => [] end
          ++ call_NewLogger (logLevel w) ("(" ++ name ++ ") ")
          :: trace (logf (device.Verbosef logger)
                      "Starting wireguard-go version %s"
                      [device.AStr (Version w)]))%list in
       match r with
       | Err err =>
           main w
           = ((start ++ trace (logf (device.Errorf logger)
                                 "Failed to create TUN device: %v"
                                 [device.AErr err]))%list,
              Exit ExitSetupFailed)
       | Ok tdev =>
           exists t2 r',
             openUAPI w name = (t2, Continue r')
             /\ match r' with
                | Err err =>
                    main w
                    = ((start ++ t2
                        ++ trace (logf (device.Errorf logger)
                                    "UAPI listen error: %v"
                                    [device.AErr err]))%list,
                       Exit ExitSetupFailed)
                | Ok fileUAPI =>
                    main w
                    = bind ((start ++ t2)%list, Continue tt)
                        (fun _ =>
                           if negb (stays_in_foreground w fg)
                           then daemonize w logger (logLevel w) tdev fileUAPI
                           else runInPlace w name logger tdev fileUAPI)
                end
       end.
Proof.
  intros Hi.
  destruct (warning_run w) as [Hws _].
  destruct (openTUN w n) as [t1 e1] eqn:H1.
  destruct (openTUN_continues w n) as [r Hr]. rewrite H1 in Hr. simpl in Hr.
  subst e1. exists t1, r. split; [reflexivity|].
  pose proof (main_from_args_run w fg n H1) as Hrun. cbv zeta in Hrun |- *.
  rewrite (main_invoked Hi).
  destruct r as [tdev|err].
  - destruct (openUAPI w (final_name n (Ok tdev))) as [t2 e2] eqn:H2.
    destruct (openUAPI_continues w (final_name n (Ok tdev))) as [r' Hr'].
    rewrite H2 in Hr'. simpl in Hr'. subst e2.
    exists t2, r'. split; [reflexivity|].
    specialize (Hrun t2 r' eq_refl).
    destruct r' as [fileUAPI|err]; rewrite Hrun; apply M_ext;
      unfold stays_in_foreground;
      repeat (rewrite ?fst_bind, ?snd_bind, ?Hws; cbn [fst snd]);
      unfold trace; rewrite <- ?app_assoc; reflexivity.
  - rewrite Hrun. apply M_ext;
      repeat (rewrite ?fst_bind, ?snd_bind, ?Hws; cbn [fst snd]);
      unfold trace; rewrite <- ?app_assoc; reflexivity.
Qed.

(** The relaunch branch, case by case. *)
Lemma daemonize_cases w logger lvl tdev fileUAPI :
  daemonize w logger lvl tdev fileUAPI
  = match os_Executable w with
    | Err err =>
        ((launch_opens w lvl ++ call_Executable
          :: trace (logf (device.Errorf logger)
                      "Failed to determine executable: %v"
                      [device.AErr err]))%list,
         Exit ExitSetupFailed)
    | Ok path =>
        let attr := launch_attr w lvl tdev fileUAPI in
        match os_StartProcess w path (os_Args w) attr with
        | Err err =>
            ((launch_opens w lvl ++ call_Executable
              :: call_StartProcess path (os_Args w) attr
              :: trace (logf (device.Errorf logger) "Failed to daemonize: %v"
                          [device.AErr err]))%list,
             Exit ExitSetupFailed)
        | Ok pid =>
            ((launch_opens w lvl
              ++ [call_Executable;
                  call_StartProcess path (os_Args w) attr;
                  call_Release pid])%list,
             Continue tt)
        end
    end.
Proof.
  assert (Henv : (((os_Environ w ++ [(ENV_WG_TUN_FD ++ "=3")%string])
                   ++ [(ENV_WG_UAPI_FD ++ "=4")%string])
                  ++ [(ENV_WG_PROCESS_FOREGROUND ++ "=1")%string])%list
                 = (os_Environ w
                    ++ ["WG_TUN_FD=3"; "WG_UAPI_FD=4";
                        "WG_PROCESS_FOREGROUND=1"])%list).
  { rewrite <- !app_assoc. reflexivity. }
  unfold daemonize, launch_attr, launch_opens. cbv zeta.
  fold (keeps_streams w lvl). rewrite Henv.
  destruct (keeps_streams w lvl);
    destruct (os_Executable w) as [path|err].
  all: try destruct (os_StartProcess w _ _ _) as [pid|err'] eqn:Hs.
  all: apply M_ext; run_m; rewrite ?Hs; run_m; rewrite ?app_nil_r; reflexivity.
Qed.

(** The foreground branch, case by case. *)
Lemma runInPlace_cases w name logger tdev fileUAPI :
  let v := fun format => trace (logf (device.Verbosef logger) format []) in
  runInPlace w name logger tdev fileUAPI
  = match ipc_UAPIListen w name fileUAPI with
    | Err err =>
        ((call_NewDevice tdev logger :: v "Device started"
          ++ call_UAPIListen name fileUAPI
          :: trace (logf (device.Errorf logger)
                      "Failed to listen on uapi socket: %v"
                      [device.AErr err]))%list,
         Exit ExitSetupFailed)
    | Ok uapi =>
        let up :=
          (call_NewDevice tdev logger :: v "Device started"
           ++ call_UAPIListen name fileUAPI :: go_acceptLoop uapi
           :: v "UAPI listener started"
           ++ [call_Notify SIGTERM; call_Notify Interrupt; call_device_Wait])%list in
        match select_receives w with
        | None => (up, Blocked)
        | Some ev =>
            ((up ++ received ev :: call_uapi_Close :: call_device_Close
              :: v "Shutting down")%list,
             Continue tt)
        end
    end.
Proof.
  cbv zeta. unfold runInPlace.
  destruct (ipc_UAPIListen w name fileUAPI) as [uapi|err];
    [destruct (select_receives w) as [ev|]|].
  all: apply M_ext; run_m.
  all: destruct (device.Verbosef logger), (device.Errorf logger); reflexivity.
Qed.

(** ** The arguments *)

Lemma invoked_functional w fg n fg' n' :
  invoked w fg n -> invoked w fg' n' -> fg = fg' /\ n = n'.
Proof.
  intros [a0 x Ha Hv Hf Hg | a0 fl x Ha Hfl] [b0 y Hb Hv' Hf' Hg' | b0 fl' y Hb Hfl'];
    rewrite Ha in Hb; inversion Hb; subst; auto.
Qed.

(** X1.  Called with the single argument --version, [main] prints the
    version line, made of [Version], the operating system and the
    architecture, and returns: it prints no warning, reads no descriptor and
    makes no other call. *)
Theorem version_prints_and_returns (w : World) a0 :
  os_Args w = [a0; "--version"] ->
  main w
  = ([fmt_Printf version_format
        [Version w; runtime_GOOS w; runtime_GOARCH w]],
     Continue tt)
  /\ exit_status (main w) = Exited ExitSetupSuccess
  /\ forall fg n, ~ invoked w fg n.
Proof.
  intros Ha.
  assert (Hm : main w
               = ([fmt_Printf version_format
                     [Version w; runtime_GOOS w; runtime_GOARCH w]],
                  Continue tt)).
  { unfold main. rewrite Ha. reflexivity. }
  split; [exact Hm|]. split; [unfold exit_status; now rewrite Hm|].
  intros fg n [b0 y Hb Hv _ _ | b0 fl y Hb _]; rewrite Ha in Hb;
    inversion Hb; subst. now apply Hv.
Qed.

Lemma version_prints_and_returns_witness :
  exit_status (main (world_of ["wireguard-go"; "--version"] [] tun0))
  = Exited ExitSetupSuccess.
Proof.
  apply (@version_prints_and_returns
           (world_of ["wireguard-go"; "--version"] [] tun0) "wireguard-go").
  reflexivity.
Defined.

(** X2.  Arguments that neither ask for the version nor pass the switch
    (too few, too many, a flag without a name, two names) make [main] print
    the warning, if any, and the usage line with the program name, and
    return with status 0: no descriptor is read, nothing is created, nothing
    is logged. *)
Theorem refused_arguments_print_usage (w : World) a0 rest :
  os_Args w = a0 :: rest ->
  rest <> ["--version"] ->
  (forall fg n, ~ invoked w fg n) ->
  trace (main w)
  = (trace (warning w) ++ [fmt_Printf usage_format [a0]])%list
  /\ exit_status (main w) = Exited ExitSetupSuccess.
Proof.
  intros Ha Hv Hi.
  assert (U : bind (warning w) (fun _ => printUsage w)
              = ((trace (warning w) ++ [fmt_Printf usage_format [a0]])%list,
                 Continue tt)).
  { destruct (warning_run w) as [Hws _].
    apply M_ext; rewrite ?fst_bind, ?snd_bind, Hws; unfold printUsage;
      rewrite Ha; reflexivity. }
  assert (Hm : main w = bind (warning w) (fun _ => printUsage w)).
  { unfold main. cbv zeta. rewrite Ha.
    destruct rest as [|a1 [|a2 [|a3 l]]]; simpl; try reflexivity.
    - destruct (a1 == "--version") eqn:E.
      + apply String.eqb_eq in E. subst. now contradiction Hv.
      + destruct ((a1 == "-f") || (a1 == "--foreground")) eqn:Hf;
          [reflexivity|].
        exfalso. apply (Hi false a1).
        apply orb_false_iff in Hf. destruct Hf as [H1 H2].
        apply String.eqb_neq in E, H1, H2.
        now apply invoked_plain with a0.
    - destruct ((a1 == "-f") || (a1 == "--foreground")) eqn:Hf;
        [|reflexivity].
      exfalso. apply (Hi true a2).
      apply orb_true_iff in Hf.
      apply invoked_foreground with a0 a1; [exact Ha|].
      destruct Hf as [H|H]; apply String.eqb_eq in H; auto. }
  unfold trace, exit_status. rewrite Hm, U. split; reflexivity.
Qed.

Lemma refused_arguments_print_usage_witness :
  trace (main (world_of ["wireguard-go"; "-f"] [] tun0))
  = (trace (warning (world_of ["wireguard-go"; "-f"] [] tun0))
     ++ [fmt_Printf usage_format ["wireguard-go"]])%list
  /\ exit_status (main (world_of ["wireguard-go"; "-f"] [] tun0))
     = Exited ExitSetupSuccess.
Proof.
  apply (@refused_arguments_print_usage
           (world_of ["wireguard-go"; "-f"] [] tun0) "wireguard-go" ["-f"]).
  - reflexivity.
  - discriminate.
  - intros fg n [b0 y Hb _ Hf _ | b0 fl y Hb _]; simpl in Hb;
      inversion Hb; subst. now apply Hf.
Defined.

(** ** What a run contains *)

Lemma filter_none (P : event -> Prop) (sel : event -> bool) t :
  (forall e, P e -> sel e = false) -> Forall P t -> filter sel t = [].
Proof.
  intros HP H. induction H as [|e t He _ IH]; simpl; [reflexivity|].
  now rewrite (HP e He).
Qed.

Lemma filter_all (sel : event -> bool) t :
  Forall (fun e => sel e = true) t -> filter sel t = t.
Proof.
  intros H. induction H as [|e t He _ IH]; simpl; [reflexivity|].
  now rewrite He, IH.
Qed.

Lemma openTUN_resolver w n :
  Forall (fun e => is_resolver_step e = true) (fst (openTUN w n)).
Proof.
  unfold openTUN.
  destruct (_ == _); [repeat constructor|].
  destruct (strconv.ParseUint _ _); [|constructor].
  run_m. destruct (unix_SetNonblock _ _ _); repeat constructor.
Qed.

Lemma openUAPI_resolver w n :
  Forall (fun e => is_resolver_step e = true) (fst (openUAPI w n)).
Proof.
  unfold openUAPI.
  destruct (_ == _); [repeat constructor|].
  destruct (strconv.ParseUint _ _); repeat constructor.
Qed.

Lemma logf_lines f format args :
  Forall (fun e => is_log_line e = true) (fst (logf f format args)).
Proof. destruct f; repeat constructor. Qed.

Lemma warning_lines w :
  Forall (fun e => is_stderr_line e = true) (fst (warning w)).
Proof.
  unfold warning. cbv zeta.
  destruct (_ || _); [|constructor].
  destruct (_ == _); repeat constructor.
Qed.

Ltac split_logger :=
  match goal with
  | |- context [call_NewLogger ?a ?b :: ?l] =>
      change (call_NewLogger a b :: l) with ([call_NewLogger a b] ++ l)%list
  end.

(** The part of a run that a selector keeps, piece by piece. *)
Lemma main_filter (sel : event -> bool) w fg n :
  invoked w fg n ->
  exists t1 r t2 r',
    openTUN w n = (t1, Continue r)
    /\ openUAPI w (final_name n r) = (t2, Continue r')
    /\ let name := final_name n r in
       let logger := device.NewLogger (logLevel w) ("(" ++ name ++ ") ") in
       filter sel (trace (main w))
       = (filter sel (trace (warning w)) ++ filter sel t1
          ++ filter sel (match r with Ok tdev => [call_Name tdev] | Err _ => [] end)
          ++ filter sel [call_NewLogger (logLevel w) ("(" ++ name ++ ") ")]
          ++ filter sel (trace (logf (device.Verbosef logger)
                                  "Starting wireguard-go version %s"
                                  [device.AStr (Version w)]))
          ++ match r with
             | Err err =>
                 filter sel (trace (logf (device.Errorf logger)
                                      "Failed to create TUN device: %v"
                                      [device.AErr err]))
             | Ok tdev =>
                 filter sel t2
                 ++ match r' with
                    | Err err =>
                        filter sel (trace (logf (device.Errorf logger)
                                             "UAPI listen error: %v"
                                             [device.AErr err]))
                    | Ok fileUAPI =>
                        filter sel
                          (trace (if negb (stays_in_foreground w fg)
                                  then daemonize w logger (logLevel w) tdev
                                         fileUAPI
                                  else runInPlace w name logger tdev fileUAPI))
                    end
             end)%list.
Proof.
  intros Hi.
  destruct (main_shape Hi) as (t1 & r & H1 & Hs). cbv zeta in Hs.
  exists t1, r. unfold trace in *.
  destruct r as [tdev|err].
  - destruct Hs as (t2 & r' & H2 & Hs).
    exists t2, r'. split; [exact H1|]. split; [exact H2|]. cbv zeta.
    destruct r' as [fileUAPI|err]; rewrite Hs; rewrite ?fst_bind;
      cbn [fst snd]; split_logger; rewrite ?filter_app;
      rewrite <- ?app_assoc; reflexivity.
  - destruct (openUAPI w (final_name n (Err err))) as [t2 e2] eqn:H2.
    destruct (openUAPI_continues w (final_name n (Err err))) as [r' Hr'].
    rewrite H2 in Hr'. simpl in Hr'. subst e2.
    exists t2, r'. split; [exact H1|]. split; [reflexivity|]. cbv zeta.
    rewrite Hs. cbn [fst snd]. split_logger. rewrite ?filter_app.
    rewrite <- ?app_assoc. reflexivity.
Qed.

(** When the arguments do not pass the switch, [main] prints the version or
    the usage. *)
Lemma main_refused w :
  (exists fg n, invoked w fg n)
  \/ main w
     = ([fmt_Printf version_format
           [Version w; runtime_GOOS w; runtime_GOARCH w]],
        Continue tt)
  \/ main w = bind (warning w) (fun _ => printUsage w).
Proof.
  unfold main. cbv zeta.
  destruct (os_Args w) as [|a0 [|a1 [|a2 [|a3 l]]]] eqn:Ha; simpl; auto.
  - destruct (a1 == "--version") eqn:Hv; [auto|].
    destruct ((a1 == "-f") || (a1 == "--foreground")) eqn:Hf; [auto|].
    left. exists false, a1.
    apply orb_false_iff in Hf. destruct Hf as [H1 H2].
    apply String.eqb_neq in Hv, H1, H2.
    now apply invoked_plain with a0.
  - destruct ((a1 == "-f") || (a1 == "--foreground")) eqn:Hf; [|auto].
    left. exists true, a2.
    apply orb_true_iff in Hf.
    apply invoked_foreground with a0 a1; [exact Ha|].
    destruct Hf as [H|H]; apply String.eqb_eq in H; auto.
Qed.

(** A selector that keeps neither the resolvers' calls nor the logger's
    lines nor the calls of [Name] and [NewLogger] keeps, of a run, only steps
    of the warning and of the branch taken. *)
Lemma main_filter_quiet (sel : event -> bool) w fg n :
  invoked w fg n ->
  (forall e, is_resolver_step e = true -> sel e = false) ->
  (forall e, is_log_line e = true -> sel e = false) ->
  (forall d, sel (call_Name d) = false) ->
  (forall l p, sel (call_NewLogger l p) = false) ->
  exists t1 r t2 r',
    openTUN w n = (t1, Continue r)
    /\ openUAPI w (final_name n r) = (t2, Continue r')
    /\ let name := final_name n r in
       let logger := device.NewLogger (logLevel w) ("(" ++ name ++ ") ") in
       filter sel (trace (main w))
       = (filter sel (trace (warning w))
          ++ match r, r' with
             | Ok tdev, Ok fileUAPI =>
                 filter sel
                   (trace (if negb (stays_in_foreground w fg)
                           then daemonize w logger (logLevel w) tdev fileUAPI
                           else runInPlace w name logger tdev fileUAPI))
             | _, _ => []
             end)%list.
Proof.
  intros Hi Hres Hlog Hname Hnew.
  destruct (main_filter sel Hi) as (t1 & r & t2 & r' & H1 & H2 & Hf).
  exists t1, r, t2, r'. split; [exact H1|]. split; [exact H2|].
  cbv zeta in Hf |- *. rewrite Hf. f_equal.
  pose proof (openTUN_resolver w n) as Q1. rewrite H1 in Q1.
  pose proof (openUAPI_resolver w (final_name n r)) as Q2. rewrite H2 in Q2.
  cbn [fst] in Q1, Q2.
  rewrite (filter_none _ Hres Q1).
  unfold trace.
  rewrite (filter_none _ Hlog (logf_lines _ _ _)).
  cbn [filter]. rewrite Hnew. cbn [app].
  destruct r as [tdev|err]; cbn [filter app]; rewrite ?Hname; cbn [app].
  - rewrite (filter_none _ Hres Q2). cbn [app].
    destruct r' as [fileUAPI|err]; [reflexivity|].
    apply (filter_none _ Hlog (logf_lines _ _ _)).
  - apply (filter_none _ Hlog (logf_lines _ _ _)).
Qed.

Lemma relaunch_step_quiet (sel : event -> bool) w lvl tdev fileUAPI :
  (forall e, is_relaunch_step e = true -> sel e = false) ->
  (forall e, is_log_line e = true -> sel e = false) ->
  forall e, relaunch_step w lvl tdev fileUAPI e -> sel e = false.
Proof.
  intros Hr Hl e He.
  destruct e; simpl in He; try contradiction;
    first [apply Hr; reflexivity | apply Hl; reflexivity].
Qed.

(** ** The warning *)

(** X3.  The lines [main] writes to the standard error are those of the
    warning and nothing else, so a run writes there either nothing or the
    nine lines of the banner, once.  It writes nothing when the foreground
    marker is "1" (a relaunched child does not repeat the warning of its
    parent) and nothing on an operating system other than linux, freebsd and
    openbsd. *)
Theorem banner_at_most_once (w : World) :
  (filter is_stderr_line (trace (main w)) = []
   \/ filter is_stderr_line (trace (main w)) = map fmt_Fprintln_Stderr banner)
  /\ (os_Getenv w ENV_WG_PROCESS_FOREGROUND = "1" ->
      filter is_stderr_line (trace (main w)) = [])
  /\ (runtime_GOOS w <> "linux" -> runtime_GOOS w <> "freebsd" ->
      runtime_GOOS w <> "openbsd" ->
      filter is_stderr_line (trace (main w)) = []).
Proof.
  assert (H : filter is_stderr_line (trace (main w)) = []
              \/ filter is_stderr_line (trace (main w)) = trace (warning w)).
  { destruct (main_refused w) as [(fg & n & Hi) | [Hm | Hm]].
    - right.
      destruct (@main_filter_quiet is_stderr_line w fg n Hi)
        as (t1 & r & t2 & r' & _ & _ & Hf);
        try (intros []; simpl; congruence); try reflexivity.
      cbv zeta in Hf. rewrite Hf. unfold trace.
      rewrite (@filter_all _ _ (warning_lines w)).
      assert (E : forall A (l : list A), (l ++ [])%list = l)
        by (intros; apply app_nil_r).
      destruct r as [tdev|]; [destruct r' as [fileUAPI|]|]; try apply E.
      rewrite <- (E _ (fst (warning w))) at 2. f_equal.
      destruct (negb _).
      + apply filter_none with (P := relaunch_step w (logLevel w) tdev fileUAPI).
        * apply relaunch_step_quiet; intros []; simpl; congruence.
        * apply daemonize_run.
      + apply filter_none with (P := fun e => is_run_step e = true).
        * intros []; simpl; congruence.
        * apply runInPlace_steps.
    - left. unfold trace. rewrite Hm. reflexivity.
    - right. unfold trace. rewrite Hm, fst_bind.
      destruct (warning_run w) as [-> _].
      rewrite filter_app, (@filter_all _ _ (warning_lines w)).
      unfold printUsage. destruct (os_Args w); simpl; apply app_nil_r. }
  assert (W : trace (warning w) = []
              \/ trace (warning w) = map fmt_Fprintln_Stderr banner).
  { unfold warning. cbv zeta.
    destruct (_ || _); [|now left]. destruct (_ == _); [now left|now right]. }
  split; [|split].
  - destruct H as [H|H]; [now left|]. rewrite H. exact W.
  - intros Hmark. destruct H as [H|H]; [exact H|]. rewrite H.
    unfold warning. cbv zeta. rewrite Hmark.
    destruct (_ || _); reflexivity.
  - intros H1 H2 H3. destruct H as [H|H]; [exact H|]. rewrite H.
    apply String.eqb_neq in H1, H2, H3.
    unfold warning. cbv zeta. rewrite H1, H2, H3. reflexivity.
Qed.

Lemma banner_at_most_once_witness :
  filter is_stderr_line (trace (main world_child)) = [].
Proof.
  apply (proj1 (proj2 (banner_at_most_once world_child))).
  reflexivity.
Defined.

(** ** The foreground decision *)

Lemma logf_quiet (sel : event -> bool) f format args :
  (forall l, sel (log_Printf l) = false) ->
  filter sel (fst (logf f format args)) = [].
Proof. intros H. destruct f; simpl; [reflexivity|]. now rewrite H. Qed.

Lemma warning_quiet (sel : event -> bool) w :
  (forall s, sel (fmt_Fprintln_Stderr s) = false) ->
  filter sel (trace (warning w)) = [].
Proof.
  intros H. apply filter_none with (P := fun e => is_stderr_line e = true).
  - intros []; simpl; congruence.
  - apply warning_lines.
Qed.

Lemma refused_quiet (sel : event -> bool) w :
  (forall s, sel (fmt_Fprintln_Stderr s) = false) ->
  (forall f a, sel (fmt_Printf f a) = false) ->
  main w
  = ([fmt_Printf version_format
        [Version w; runtime_GOOS w; runtime_GOARCH w]],
     Continue tt)
  \/ main w = bind (warning w) (fun _ => printUsage w) ->
  filter sel (trace (main w)) = [].
Proof.
  intros Hs Hp [Hm | Hm].
  - unfold trace. rewrite Hm. simpl. now rewrite Hp.
  - unfold trace. rewrite Hm, fst_bind, filter_app.
    fold (trace (warning w)). rewrite (warning_quiet _ w Hs).
    destruct (warning_run w) as [-> _].
    unfold printUsage. destruct (os_Args w); simpl; [reflexivity|].
    now rewrite Hp.
Qed.

(** X4.  With the flag -f or --foreground [main] makes no step of the
    relaunch branch (no open of the null device, no [os.Executable], no
    [os.StartProcess], no [Release]), whatever the foreground marker says. *)
Theorem foreground_flag_never_relaunches (w : World) n :
  invoked w true n ->
  filter is_relaunch_step (trace (main w)) = [].
Proof.
  intros Hi.
  destruct (@main_filter_quiet is_relaunch_step w true n Hi)
    as (t1 & r & t2 & r' & _ & _ & Hf);
    try (intros []; simpl; congruence); try reflexivity.
  cbv zeta in Hf. rewrite Hf.
  rewrite warning_quiet by reflexivity.
  destruct r as [tdev|]; [destruct r' as [fileUAPI|]|]; try reflexivity.
  cbn [app stays_in_foreground negb].
  apply filter_none with (P := fun e => is_run_step e = true).
  - intros []; simpl; congruence.
  - apply runInPlace_steps.
Qed.

Lemma foreground_flag_never_relaunches_witness :
  filter is_relaunch_step
    (trace (main (world_of ["wireguard-go"; "--foreground"; "wg0"] [] tun0)))
  = [].
Proof.
  apply (@foreground_flag_never_relaunches
           (world_of ["wireguard-go"; "--foreground"; "wg0"] [] tun0) "wg0").
  apply invoked_foreground with "wireguard-go" "--foreground";
    [reflexivity | right; reflexivity].
Defined.

(** X5.  Without the flag and without the foreground marker at "1", the
    process that was started never runs the engine itself: it neither
    builds the device nor listens on the UAPI socket, starts no accept loop,
    installs no signal handler, waits for no event and closes nothing. *)
Theorem background_parent_never_runs_engine (w : World) n :
  invoked w false n ->
  os_Getenv w ENV_WG_PROCESS_FOREGROUND <> "1" ->
  filter is_engine_step (trace (main w)) = [].
Proof.
  intros Hi Hmark.
  destruct (@main_filter_quiet is_engine_step w false n Hi)
    as (t1 & r & t2 & r' & _ & _ & Hf);
    try (intros []; simpl; congruence); try reflexivity.
  cbv zeta in Hf. rewrite Hf.
  rewrite warning_quiet by reflexivity.
  destruct r as [tdev|]; [destruct r' as [fileUAPI|]|]; try reflexivity.
  apply String.eqb_neq in Hmark.
  cbn [app stays_in_foreground negb]. rewrite Hmark. cbn [negb].
  apply filter_none with (P := relaunch_step w (logLevel w) tdev fileUAPI).
  - apply relaunch_step_quiet; intros []; simpl; congruence.
  - apply daemonize_run.
Qed.

Lemma background_parent_never_runs_engine_witness :
  filter is_engine_step
    (trace (main (world_of ["wireguard-go"; "wg0"] [] tun0)))
  = [].
Proof.
  apply (@background_parent_never_runs_engine
           (world_of ["wireguard-go"; "wg0"] [] tun0) "wg0").
  - apply invoked_plain with "wireguard-go";
      [reflexivity | discriminate | discriminate | discriminate].
  - vm_compute. discriminate.
Defined.

(** X6.  In any run [os.StartProcess] is called at most once: a process
    relaunches itself once or not at all. *)
Theorem StartProcess_at_most_once (w : World) :
  (length (filter is_StartProcess (trace (main w))) <= 1)%nat.
Proof.
  destruct (main_refused w) as [(fg & n & Hi) | H].
  - destruct (@main_filter_quiet is_StartProcess w fg n Hi)
      as (t1 & r & t2 & r' & _ & _ & Hf);
      try (intros []; simpl; congruence); try reflexivity.
    cbv zeta in Hf. rewrite Hf.
    rewrite warning_quiet by reflexivity.
    destruct r as [tdev|]; [destruct r' as [fileUAPI|]|]; simpl; try lia.
    destruct (negb _).
    + rewrite daemonize_cases. unfold launch_opens, trace.
      destruct (keeps_streams _ _); destruct (os_Executable w) as [path|err];
        cbv zeta; try destruct (os_StartProcess w _ _ _) as [pid|err'];
        cbn [fst app filter is_StartProcess];
        rewrite ?logf_quiet by reflexivity; simpl; lia.
    + rewrite filter_none with (P := fun e => is_run_step e = true);
        [simpl; lia | intros []; simpl; congruence | apply runInPlace_steps].
  - rewrite refused_quiet; [simpl; lia | reflexivity | reflexivity | exact H].
Qed.

(** ** The relaunch, outcome by outcome *)

Lemma setup_not_engine e : is_setup_step e = true -> is_engine_step e = false.
Proof. destruct e; simpl; congruence. Qed.

Lemma start_is_setup w n t1 (r : result Device) t2 r' :
  openTUN w n = (t1, Continue r) ->
  openUAPI w (final_name n r) = (t2, Continue r') ->
  setup_only
    ((trace (warning w) ++ t1
      ++ match r with Ok tdev => [call_Name tdev] | Err _ => [] end
      ++ call_NewLogger (logLevel w) ("(" ++ final_name n r ++ ") ")
      :: trace (logf (device.Verbosef
                        (device.NewLogger (logLevel w)
                           ("(" ++ final_name n r ++ ") ")))
                  "Starting wireguard-go version %s"
                  [device.AStr (Version w)])) ++ t2)%list.
Proof.
  intros H1 H2.
  pose proof (openTUN_setup w n) as Q1. rewrite H1 in Q1.
  pose proof (openUAPI_setup w (final_name n r)) as Q2. rewrite H2 in Q2.
  apply Forall_app; split; [|exact Q2].
  apply Forall_app; split; [apply warning_run|].
  now apply (@start_setup _ t1 r).
Qed.

(** X7.  When the process relaunches itself, the attributes of the child
    carry in slot 3 the file of the very tunnel device the resolver returned
    and in slot 4 the very UAPI file it returned, five files in all; the
    child runs the executable [os.Executable] names with the parent's
    arguments.  If [os.Executable] fails no process is started and the
    parent exits with 1; if [os.StartProcess] fails the parent exits with 1
    without [Release]; if it succeeds the parent releases the child and
    returns, its last three steps being [Executable], [StartProcess],
    [Release]. *)
Theorem relaunch_outcomes (w : World) n t1 tdev t2 fileUAPI :
  invoked w false n ->
  os_Getenv w ENV_WG_PROCESS_FOREGROUND <> "1" ->
  openTUN w n = (t1, Continue (Ok tdev)) ->
  openUAPI w (final_name n (Ok tdev)) = (t2, Continue (Ok fileUAPI)) ->
  let attr := launch_attr w (logLevel w) tdev fileUAPI in
  let logger :=
    device.NewLogger (logLevel w) ("(" ++ final_name n (Ok tdev) ++ ") ") in
  length (Files attr) = 5%nat
  /\ nth_error (Files attr) 3 = Some (DeviceFile tdev)
  /\ nth_error (Files attr) 4 = Some fileUAPI
  /\ exists pre,
       filter is_relaunch_step pre = []
       /\ match os_Executable w with
          | Err err =>
              main w
              = ((pre ++ launch_opens w (logLevel w) ++ call_Executable
                  :: trace (logf (device.Errorf logger)
                              "Failed to determine executable: %v"
                              [device.AErr err]))%list,
                 Exit ExitSetupFailed)
          | Ok path =>
              match os_StartProcess w path (os_Args w) attr with
              | Err err =>
                  main w
                  = ((pre ++ launch_opens w (logLevel w) ++ call_Executable
                      :: call_StartProcess path (os_Args w) attr
                      :: trace (logf (device.Errorf logger)
                                  "Failed to daemonize: %v"
                                  [device.AErr err]))%list,
                     Exit ExitSetupFailed)
              | Ok pid =>
                  main w
                  = ((pre ++ launch_opens w (logLevel w)
                      ++ [call_Executable;
                          call_StartProcess path (os_Args w) attr;
                          call_Release pid])%list,
                     Continue tt)
              end
          end.
Proof.
  intros Hi Hmark H1 H2. cbv zeta.
  split; [reflexivity|]. split; [reflexivity|]. split; [reflexivity|].
  destruct (main_shape Hi) as (t1' & r & H1' & Hs).
  rewrite H1 in H1'. inversion H1'; subst t1' r. clear H1'.
  cbv zeta in Hs. destruct Hs as (t2' & r' & H2' & Hs).
  rewrite H2 in H2'. inversion H2'; subst t2' r'. clear H2'.
  apply String.eqb_neq in Hmark.
  unfold stays_in_foreground in Hs. cbn [negb] in Hs. rewrite Hmark in Hs.
  cbn [negb] in Hs.
  eexists. split.
  - exact (@filter_quiet _ _ _ setup_not_relaunch (start_is_setup w n H1 H2)).
  - rewrite daemonize_cases in Hs. rewrite Hs.
    destruct (os_Executable w) as [path|err]; cbv zeta;
      [destruct (os_StartProcess w _ _ _) as [pid|err]|];
      apply M_ext; rewrite ?fst_bind, ?snd_bind; reflexivity.
Qed.

Lemma relaunch_outcomes_witness :
  exists pre,
    main world_no_start
    = ((pre ++ launch_opens world_no_start device.LogLevelError
        ++ call_Executable
        :: call_StartProcess "/usr/bin/wireguard-go" ["wireguard-go"; "wg0"]
             (launch_attr world_no_start device.LogLevelError tun0 (Handle 11))
        :: [log_Printf
              (device.mkLine "ERROR: (utun7) " "Failed to daemonize: %v"
                 [device.AErr (ErrOther "fork failed")])])%list,
       Exit ExitSetupFailed).
Proof.
  destruct (@relaunch_outcomes world_no_start "wg0"
              [call_CreateTUN "wg0" 1420] tun0
              [call_UAPIOpen "utun7"] (Handle 11))
    as (_ & _ & _ & pre & _ & Hm).
  - apply invoked_plain with "wireguard-go";
      [reflexivity | discriminate | discriminate | discriminate].
  - vm_compute. discriminate.
  - reflexivity.
  - reflexivity.
  - exists pre. exact Hm.
Defined.

(** ** Failures of the setup *)

Lemma openTUN_no_UAPIOpen w n :
  filter is_UAPIOpen (fst (openTUN w n)) = [].
Proof.
  unfold openTUN.
  destruct (_ == _); [reflexivity|].
  destruct (strconv.ParseUint _ _); [|reflexivity].
  run_m. destruct (unix_SetNonblock _ _ _); reflexivity.
Qed.

(** X8.  When the tunnel cannot be opened, [main] builds the logger under
    the requested name, writes the start line and the line "Failed to create
    TUN device" through it and exits with status 1, these being its last
    steps: the UAPI socket is never opened, no engine is built and nothing
    is relaunched. *)
Theorem tunnel_failure_is_fatal (w : World) fg n t1 err :
  invoked w fg n ->
  openTUN w n = (t1, Continue (Err err)) ->
  let logger := device.NewLogger (logLevel w) ("(" ++ n ++ ") ") in
  main w
  = ((trace (warning w) ++ t1
      ++ call_NewLogger (logLevel w) ("(" ++ n ++ ") ")
      :: trace (logf (device.Verbosef logger)
                  "Starting wireguard-go version %s"
                  [device.AStr (Version w)])
      ++ trace (logf (device.Errorf logger)
                  "Failed to create TUN device: %v" [device.AErr err]))%list,
     Exit ExitSetupFailed)
  /\ exit_status (main w) = Exited ExitSetupFailed
  /\ filter is_UAPIOpen (trace (main w)) = []
  /\ filter is_engine_step (trace (main w)) = []
  /\ filter is_relaunch_step (trace (main w)) = [].
Proof.
  intros Hi H1. cbv zeta.
  destruct (main_shape Hi) as (t1' & r & H1' & Hs).
  rewrite H1 in H1'. inversion H1'; subst t1' r. clear H1'.
  cbv zeta in Hs. cbn [final_name app] in Hs.
  assert (Hm : main w
    = ((trace (warning w) ++ t1
        ++ call_NewLogger (logLevel w) ("(" ++ n ++ ") ")
        :: trace (logf (device.Verbosef
                          (device.NewLogger (logLevel w) ("(" ++ n ++ ") ")))
                    "Starting wireguard-go version %s"
                    [device.AStr (Version w)])
        ++ trace (logf (device.Errorf
                          (device.NewLogger (logLevel w) ("(" ++ n ++ ") ")))
                    "Failed to create TUN device: %v" [device.AErr err]))%list,
       Exit ExitSetupFailed)).
  { rewrite Hs. f_equal. rewrite <- !app_assoc. reflexivity. }
  split; [exact Hm|]. split; [unfold exit_status; now rewrite Hm|].
  pose proof (openTUN_no_UAPIOpen w n) as HU. rewrite H1 in HU. cbn [fst] in HU.
  pose proof (openTUN_setup w n) as Q1. rewrite H1 in Q1.
  unfold trace in Q1. cbn [fst] in Q1.
  unfold trace. rewrite Hm. cbn [fst]. split_logger.
  rewrite !filter_app.
  rewrite !(@warning_quiet _ w) by reflexivity.
  unfold trace. rewrite !logf_quiet by reflexivity.
  rewrite HU.
  rewrite (@filter_quiet _ _ _ setup_not_engine Q1).
  rewrite (@filter_quiet _ _ _ setup_not_relaunch Q1).
  repeat split.
Qed.

Lemma tunnel_failure_is_fatal_witness :
  exit_status (main world_no_tun) = Exited ExitSetupFailed
  /\ filter is_UAPIOpen (trace (main world_no_tun)) = [].
Proof.
  destruct (@tunnel_failure_is_fatal world_no_tun true "wg0"
              [call_CreateTUN "wg0" 1420]
              (ErrOther "operation not permitted"))
    as (_ & Hx & Hu & _).
  - apply invoked_foreground with "wireguard-go" "-f";
      [reflexivity | left; reflexivity].
  - reflexivity.
  - split; assumption.
Defined.

(** X9.  When the process stays in the foreground and [ipc.UAPIListen]
    fails, the engine has already been built: [main] writes the line
    "Failed to listen on uapi socket" and exits with status 1 without
    starting the accept loop, without installing a signal handler and
    without closing the engine. *)
Theorem listen_failure_is_fatal (w : World) fg n t1 tdev t2 fileUAPI err :
  invoked w fg n ->
  stays_in_foreground w fg = true ->
  openTUN w n = (t1, Continue (Ok tdev)) ->
  openUAPI w (final_name n (Ok tdev)) = (t2, Continue (Ok fileUAPI)) ->
  ipc_UAPIListen w (final_name n (Ok tdev)) fileUAPI = Err err ->
  let name := final_name n (Ok tdev) in
  let logger := device.NewLogger (logLevel w) ("(" ++ name ++ ") ") in
  exit_status (main w) = Exited ExitSetupFailed
  /\ filter is_engine_step (trace (main w))
     = [call_NewDevice tdev logger; call_UAPIListen name fileUAPI]
  /\ exists pre,
       trace (main w)
       = (pre ++ trace (logf (device.Errorf logger)
                          "Failed to listen on uapi socket: %v"
                          [device.AErr err]))%list.
Proof.
  intros Hi Hfg H1 H2 HL. cbv zeta.
  destruct (main_shape Hi) as (t1' & r & H1' & Hs).
  rewrite H1 in H1'. inversion H1'; subst t1' r. clear H1'.
  cbv zeta in Hs. destruct Hs as (t2' & r' & H2' & Hs).
  rewrite H2 in H2'. inversion H2'; subst t2' r'. clear H2'.
  rewrite Hfg in Hs. cbn [negb] in Hs.
  pose proof (runInPlace_cases w (final_name n (Ok tdev))
                (device.NewLogger (logLevel w)
                   ("(" ++ final_name n (Ok tdev) ++ ") "))
                tdev fileUAPI) as Hr.
  cbv zeta in Hr. rewrite HL in Hr. rewrite Hr in Hs.
  pose proof (start_is_setup w n H1 H2) as Hpre.
  unfold exit_status, trace. rewrite Hs, fst_bind, snd_bind. cbn [fst snd].
  split; [reflexivity|]. split.
  - rewrite filter_app, (@filter_quiet _ _ _ setup_not_engine Hpre).
    cbn [app filter is_engine_step]. unfold trace. rewrite filter_app.
    rewrite logf_quiet by reflexivity.
    cbn [app filter is_engine_step]. rewrite logf_quiet by reflexivity.
    reflexivity.
  - eexists.
    change (call_NewDevice ?a ?b :: ?l) with ([call_NewDevice a b] ++ l)%list.
    rewrite !app_assoc.
    match goal with
    | |- context [(?p ++ call_UAPIListen ?a ?b :: ?l)%list] =>
        change (p ++ call_UAPIListen a b :: l)%list
        with (p ++ [call_UAPIListen a b] ++ l)%list
    end.
    rewrite !app_assoc. reflexivity.
Qed.

Lemma listen_failure_is_fatal_witness :
  exit_status (main world_no_listen) = Exited ExitSetupFailed
  /\ filter is_engine_step (trace (main world_no_listen))
     = [call_NewDevice tun0
          (device.NewLogger device.LogLevelError "(utun7) ");
        call_UAPIListen "utun7" (Handle 11)].
Proof.
  destruct (@listen_failure_is_fatal world_no_listen true "wg0"
              [call_CreateTUN "wg0" 1420] tun0
              [call_UAPIOpen "utun7"] (Handle 11)
              (ErrOther "address already in use"))
    as (Hx & He & _).
  - apply invoked_foreground with "wireguard-go" "-f";
      [reflexivity | left; reflexivity].
  - reflexivity.
  - reflexivity.
  - reflexivity.
  - reflexivity.
  - split; assumption.
Defined.

(** ** How the process ends *)

(** X10.  The process ends with status 0 or 1 and no other; it panics only
    when the argument list is empty (the usage line needs element 0 of it),
    and it waits for ever only when none of the three events of the [select]
    ever arrives. *)
Theorem exit_codes (w : World) :
  match exit_status (main w) with
  | Exited c => c = ExitSetupSuccess \/ c = ExitSetupFailed
  | Panicked => os_Args w = []
  | WaitsForEver => select_receives w = None
  end.
Proof.
  unfold exit_status.
  destruct (main_refused w) as [(fg & n & Hi) | [Hm | Hm]].
  - destruct (main_shape Hi) as (t1 & r & _ & Hs). cbv zeta in Hs.
    destruct r as [tdev|err]; [|rewrite Hs; simpl; auto].
    destruct Hs as (t2 & r' & _ & Hs).
    destruct r' as [fileUAPI|err]; [|rewrite Hs; simpl; auto].
    rewrite Hs, snd_bind. cbn [snd].
    destruct (negb _).
    + rewrite daemonize_cases.
      destruct (os_Executable w) as [path|err]; cbv zeta;
        [destruct (os_StartProcess w _ _ _) as [pid|err]|]; simpl; auto.
    + rewrite runInPlace_cases. cbv zeta.
      destruct (ipc_UAPIListen w _ _) as [uapi|err]; simpl; auto.
      destruct (select_receives w) as [ev|]; simpl; auto.
  - rewrite Hm. simpl; auto.
  - rewrite Hm, snd_bind. destruct (warning_run w) as [-> _].
    unfold printUsage. destruct (os_Args w); simpl; auto.
Qed.

(** ** What is logged *)

Lemma resolver_not_log e : is_resolver_step e = true -> is_log_line e = false.
Proof. destruct e; simpl; congruence. Qed.

(** Of the steps before the foreground decision only the start line can be
    a line of the logger. *)
Lemma start_logs0 w n t1 (r : result Device) :
  openTUN w n = (t1, Continue r) ->
  let logger :=
    device.NewLogger (logLevel w) ("(" ++ final_name n r ++ ") ") in
  filter is_log_line
    (trace (warning w) ++ t1
     ++ match r with Ok tdev => [call_Name tdev] | Err _ => [] end
     ++ call_NewLogger (logLevel w) ("(" ++ final_name n r ++ ") ")
     :: trace (logf (device.Verbosef logger)
                 "Starting wireguard-go version %s"
                 [device.AStr (Version w)]))%list
  = filter is_log_line
      (trace (logf (device.Verbosef logger)
                "Starting wireguard-go version %s" [device.AStr (Version w)])).
Proof.
  intros H1. cbv zeta.
  pose proof (openTUN_resolver w n) as Q1. rewrite H1 in Q1. cbn [fst] in Q1.
  split_logger. rewrite !filter_app.
  rewrite (@warning_quiet _ w) by reflexivity.
  rewrite (@filter_quiet _ _ _ resolver_not_log Q1).
  destruct r; reflexivity.
Qed.

Lemma start_logs w n t1 (r : result Device) t2 r' :
  openTUN w n = (t1, Continue r) ->
  openUAPI w (final_name n r) = (t2, Continue r') ->
  let logger :=
    device.NewLogger (logLevel w) ("(" ++ final_name n r ++ ") ") in
  filter is_log_line
    ((trace (warning w) ++ t1
      ++ match r with Ok tdev => [call_Name tdev] | Err _ => [] end
      ++ call_NewLogger (logLevel w) ("(" ++ final_name n r ++ ") ")
      :: trace (logf (device.Verbosef logger)
                  "Starting wireguard-go version %s"
                  [device.AStr (Version w)])) ++ t2)%list
  = filter is_log_line
      (trace (logf (device.Verbosef logger)
                "Starting wireguard-go version %s" [device.AStr (Version w)])).
Proof.
  intros H1 H2. cbv zeta.
  pose proof (openUAPI_resolver w (final_name n r)) as Q2.
  rewrite H2 in Q2. cbn [fst] in Q2.
  pose proof (start_logs0 w n H1) as H0. cbv zeta in H0.
  rewrite filter_app, H0, (@filter_quiet _ _ _ resolver_not_log Q2).
  apply app_nil_r.
Qed.

Lemma logLevel_silent w :
  logLevel w = device.LogLevelSilent <-> os_Getenv w "LOG_LEVEL" = "silent".
Proof.
  unfold logLevel. cbv zeta. split.
  - destruct (_ || _); [discriminate|].
    destruct (_ == "error"); [discriminate|].
    destruct (_ == "silent") eqn:E; [|discriminate].
    intros _. now apply String.eqb_eq.
  - intros ->. reflexivity.
Qed.

(** X11.  With LOG_LEVEL=silent no run writes a single line through the
    logger: not the start line, not the shutdown notice, and no error line
    either, so that a failed setup ends with status 1 and no message. *)
Theorem silent_level_writes_nothing (w : World) :
  os_Getenv w "LOG_LEVEL" = "silent" ->
  filter is_log_line (trace (main w)) = [].
Proof.
  intros Hv. apply logLevel_silent in Hv.
  destruct (main_refused w) as [(fg & n & Hi) | H];
    [|apply refused_quiet; [reflexivity | reflexivity | exact H]].
  destruct (main_shape Hi) as (t1 & r & H1 & Hs). cbv zeta in Hs.
  destruct (openUAPI w (final_name n r)) as [t2 e2] eqn:H2.
  destruct (openUAPI_continues w (final_name n r)) as [r' Hr'].
  rewrite H2 in Hr'. simpl in Hr'. subst e2.
  pose proof (start_logs w n H1 H2) as HS. cbv zeta in HS.
  pose proof (start_logs0 w n H1) as HS0. cbv zeta in HS0.
  rewrite Hv in *.
  change (device.NewLogger device.LogLevelSilent ?p)
    with (device.mkLogger device.DiscardLogf device.DiscardLogf) in *.
  cbn [device.Verbosef device.Errorf] in *.
  unfold trace in *.
  destruct r as [tdev|err].
  - destruct Hs as (t2' & r'' & H2' & Hs).
    inversion H2'; subst t2' r''. clear H2'.
    destruct r' as [fileUAPI|err]; rewrite Hs.
    + rewrite fst_bind. cbn [fst snd]. rewrite filter_app, HS.
      destruct (negb _).
      * rewrite daemonize_cases. unfold launch_opens.
        destruct (keeps_streams _ _);
          destruct (os_Executable w) as [path|err]; cbv zeta;
          [destruct (os_StartProcess w _ _ _) as [pid|err]| |
           destruct (os_StartProcess w _ _ _) as [pid|err]|]; reflexivity.
      * rewrite runInPlace_cases. cbv zeta.
        destruct (ipc_UAPIListen w _ _) as [uapi|err];
          [destruct (select_receives w) as [ev|]|]; reflexivity.
    + cbn [fst]. rewrite app_assoc, filter_app, HS. reflexivity.
  - rewrite Hs. cbn [fst]. rewrite filter_app, HS0. reflexivity.
Qed.

Lemma silent_level_writes_nothing_witness :
  filter is_log_line
    (trace (main (world_of ["wireguard-go"; "-f"; "wg0"]
                    [("LOG_LEVEL", "silent")] tun0)))
  = [].
Proof.
  apply (@silent_level_writes_nothing
           (world_of ["wireguard-go"; "-f"; "wg0"]
              [("LOG_LEVEL", "silent")] tun0)).
  reflexivity.
Defined.



(** ** The logger, level by level *)

(** X13.  [NewLogger] takes any integer as level: a level below the silent
    one gives the silent logger, a level above the verbose one the verbose
    logger, and a logger whose verbose sink writes has an error sink that
    writes too. *)
Theorem NewLogger_any_level (level : Z) (prepend : string) :
  (level <= device.LogLevelSilent ->
   device.NewLogger level prepend
   = device.NewLogger device.LogLevelSilent prepend)
  /\ (device.LogLevelVerbose <= level ->
      device.NewLogger level prepend
      = device.NewLogger device.LogLevelVerbose prepend)
  /\ (device.active (device.Verbosef (device.NewLogger level prepend)) = true ->
      device.active (device.Errorf (device.NewLogger level prepend)) = true).
Proof.
  unfold device.NewLogger, device.LogLevelVerbose, device.LogLevelError,
    device.LogLevelSilent.
  cbv zeta.
  destruct (level >=? 2) eqn:Hv; destruct (level >=? 1) eqn:He;
    simpl; repeat split; intros; try reflexivity; try lia; try discriminate.
Qed.

Lemma NewLogger_any_level_witness :
  device.NewLogger (-3) "(wg0) "
  = device.NewLogger device.LogLevelSilent "(wg0) "
  /\ device.NewLogger 7 "(wg0) "
     = device.NewLogger device.LogLevelVerbose "(wg0) ".
Proof.
  split.
  - apply (proj1 (NewLogger_any_level (-3) "(wg0) ")).
    unfold device.LogLevelSilent. lia.
  - apply (proj1 (proj2 (NewLogger_any_level 7 "(wg0) "))).
    unfold device.LogLevelVerbose. lia.
Defined.

(** ** Descriptors *)

Lemma openTUN_in_range w n : Forall descriptor_in_range (fst (openTUN w n)).
Proof.
  unfold openTUN.
  destruct (_ == _); [repeat constructor|].
  destruct (strconv.ParseUint _ _) as [fd|] eqn:Hp; [|constructor].
  destruct (int_of_parsed _ Hp) as [-> ->].
  apply ParseUint_range in Hp.
  run_m. destruct (unix_SetNonblock _ _ _); repeat constructor;
    unfold descriptor_in_range; simpl; lia.
Qed.

Lemma openUAPI_in_range w n : Forall descriptor_in_range (fst (openUAPI w n)).
Proof.
  unfold openUAPI.
  destruct (_ == _); [repeat constructor|].
  destruct (strconv.ParseUint _ _) as [fd|] eqn:Hp; [|constructor].
  destruct (int_of_parsed _ Hp) as [_ ->].
  apply ParseUint_range in Hp.
  run_m. repeat constructor; unfold descriptor_in_range; simpl; lia.
Qed.

Lemma in_range_of_class (c : event -> bool) t :
  (forall e, c e = true -> descriptor_of e = None) ->
  Forall (fun e => c e = true) t -> Forall descriptor_in_range t.
Proof.
  intros Hc H. eapply Forall_impl; [|exact H].
  intros e He. unfold descriptor_in_range. now rewrite (Hc e He).
Qed.

(** X14.  Every descriptor number that a run hands to [unix.SetNonblock] or
    to [os.NewFile] lies between 0 and 2^32 - 1, so that the conversions to
    [int] and to [uintptr] made on the way do not change it. *)
Theorem descriptors_fit_32_bits (w : World) :
  Forall descriptor_in_range (trace (main w)).
Proof.
  unfold trace.
  destruct (main_refused w) as [(fg & n & Hi) | [Hm | Hm]].
  - destruct (main_shape Hi) as (t1 & r & H1 & Hs). cbv zeta in Hs.
    pose proof (openTUN_in_range w n) as Q1. rewrite H1 in Q1. cbn [fst] in Q1.
    assert (HW : Forall descriptor_in_range (fst (warning w))).
    { apply in_range_of_class with (c := is_stderr_line);
        [intros []; simpl; congruence | apply warning_lines]. }
    assert (HL : forall f format args,
               Forall descriptor_in_range (fst (logf f format args))).
    { intros. apply in_range_of_class with (c := is_log_line);
        [intros []; simpl; congruence | apply logf_lines]. }
    assert (HS : forall lvl p f format args,
               Forall descriptor_in_range
                 (fst (warning w) ++ t1
                  ++ match r with Ok tdev => [call_Name tdev] | Err _ => [] end
                  ++ call_NewLogger lvl p :: fst (logf f format args))%list).
    { intros. apply Forall_app; split; [exact HW|].
      apply Forall_app; split; [exact Q1|].
      apply Forall_app; split; [destruct r; repeat constructor|].
      constructor; [exact I|apply HL]. }
    unfold trace in Hs.
    destruct r as [tdev|err].
    + destruct Hs as (t2 & r' & H2 & Hs).
      pose proof (openUAPI_in_range w (final_name n (Ok tdev))) as Q2.
      rewrite H2 in Q2. cbn [fst] in Q2.
      destruct r' as [fileUAPI|err]; rewrite Hs.
      * rewrite fst_bind. cbn [fst snd].
        apply Forall_app; split;
          [apply Forall_app; split; [apply HS|exact Q2]|].
        destruct (negb _).
        -- eapply Forall_impl; [|apply daemonize_run].
           intros e He. unfold descriptor_in_range.
           destruct e; simpl in He; try contradiction; exact I.
        -- apply in_range_of_class with (c := is_run_step);
             [intros []; simpl; congruence | apply runInPlace_steps].
      * cbn [fst]. apply Forall_app; split; [apply HS|].
        apply Forall_app; split; [exact Q2|apply HL].
    + rewrite Hs. cbn [fst]. apply Forall_app; split; [apply HS|apply HL].
  - rewrite Hm. repeat constructor.
  - rewrite Hm, fst_bind. destruct (warning_run w) as [-> _].
    apply Forall_app; split.
    + apply in_range_of_class with (c := is_stderr_line);
        [intros []; simpl; congruence | apply warning_lines].
    + unfold printUsage. destruct (os_Args w); repeat constructor.
Qed.

Lemma openTUN_adopts w n fd :
  strconv.ParseUint (os_Getenv w ENV_WG_TUN_FD) 32 = Ok fd ->
  filter is_creation (fst (openTUN w n)) = [].
Proof.
  intros H. unfold openTUN. cbv zeta.
  rewrite (ParseUint_Ok_nonempty _ H), H.
  run_m. destruct (unix_SetNonblock _ _ _); reflexivity.
Qed.

Lemma openUAPI_adopts w n fd :
  strconv.ParseUint (os_Getenv w ENV_WG_UAPI_FD) 32 = Ok fd ->
  filter is_creation (fst (openUAPI w n)) = [].
Proof.
  intros H. unfold openUAPI. cbv zeta.
  rewrite (ParseUint_Ok_nonempty _ H), H. reflexivity.
Qed.

(** X15.  When both inherited descriptors are given and parse, the run
    creates nothing: [tun.CreateTUN] and [ipc.UAPIOpen] are never called,
    whichever branch is taken afterwards. *)
Theorem inherited_descriptors_create_nothing (w : World) fd3 fd4 :
  strconv.ParseUint (os_Getenv w ENV_WG_TUN_FD) 32 = Ok fd3 ->
  strconv.ParseUint (os_Getenv w ENV_WG_UAPI_FD) 32 = Ok fd4 ->
  filter is_creation (trace (main w)) = [].
Proof.
  intros H3 H4.
  destruct (main_refused w) as [(fg & n & Hi) | H];
    [|apply refused_quiet; [reflexivity | reflexivity | exact H]].
  destruct (main_filter is_creation Hi) as (t1 & r & t2 & r' & H1 & H2 & Hf).
  cbv zeta in Hf.
  pose proof (openTUN_adopts w n H3) as Q1. rewrite H1 in Q1. cbn [fst] in Q1.
  pose proof (openUAPI_adopts w (final_name n r) H4) as Q2.
  rewrite H2 in Q2. cbn [fst] in Q2.
  destruct r as [tdev|err]; [destruct r' as [fileUAPI|err]|]; rewrite Hf;
    rewrite warning_quiet by reflexivity;
    unfold trace; rewrite ?logf_quiet by reflexivity;
    rewrite Q1, ?Q2; cbn [filter is_creation app]; try reflexivity.
  destruct (negb _).
  - apply filter_none with (P := relaunch_step w (logLevel w) tdev fileUAPI).
    + apply relaunch_step_quiet; intros []; simpl; congruence.
    + apply daemonize_run.
  - apply filter_none with (P := fun e => is_run_step e = true).
    + intros []; simpl; congruence.
    + apply runInPlace_steps.
Qed.

Lemma inherited_descriptors_create_nothing_witness :
  filter is_creation (trace (main world_child)) = [].
Proof.
  apply (@inherited_descriptors_create_nothing world_child 3 4);
    reflexivity.
Defined.

(** ** The accept loop, once more *)

(** X16.  What [Accept] would answer after its first failure has no
    influence on the accept loop, and the loop calls [Accept] at most once
    for each answer up to and including that failure: after the failure
    [Accept] is not called again. *)
Theorem acceptLoop_ignores_answers_after_failure (w : World)
    (before after : list (result Conn)) (err : error) :
  acceptLoop w (mkListener (before ++ Err err :: after))
  = acceptLoop w (mkListener (before ++ [Err err]))
  /\ (accept_calls
        (fst (acceptLoop w (mkListener (before ++ Err err :: after))))
      <= S (length before))%nat.
Proof.
  unfold acceptLoop, accept_calls. simpl.
  induction before as [|[conn|e] rest IH]; simpl.
  - split; [reflexivity|lia].
  - destruct IH as [IH1 IH2]. rewrite IH1.
    destruct (acceptLoop_from (select_receives w) (rest ++ [Err err]))
      as [t e'] eqn:E.
    rewrite IH1 in IH2. simpl in *. split; [reflexivity|lia].
  - split; [reflexivity|]. simpl. lia.
Qed.

(** ** A complete run in the foreground *)

(** X17.  When the process stays in the foreground, both resolvers and
    [ipc.UAPIListen] succeed and an event arrives, the engine is built on
    the device the resolver returned, the listener is made from the file the
    resolver returned, the accept loop runs on that listener, SIGTERM and
    the interrupt signal are subscribed to, in this order, before the wait,
    and the two closes follow the event; the process ends with status 0.  At
    the verbose level the run writes four DEBUG lines: the start line,
    "Device started", "UAPI listener started" and "Shutting down". *)
Theorem foreground_run (w : World) fg n t1 tdev t2 fileUAPI uapi ev :
  invoked w fg n ->
  stays_in_foreground w fg = true ->
  openTUN w n = (t1, Continue (Ok tdev)) ->
  openUAPI w (final_name n (Ok tdev)) = (t2, Continue (Ok fileUAPI)) ->
  ipc_UAPIListen w (final_name n (Ok tdev)) fileUAPI = Ok uapi ->
  select_receives w = Some ev ->
  let name := final_name n (Ok tdev) in
  let logger := device.NewLogger (logLevel w) ("(" ++ name ++ ") ") in
  let debug := fun format args =>
    log_Printf (device.mkLine ("DEBUG: (" ++ name ++ ") ") format args) in
  exit_status (main w) = Exited ExitSetupSuccess
  /\ filter is_engine_step (trace (main w))
     = [ call_NewDevice tdev logger; call_UAPIListen name fileUAPI;
         go_acceptLoop uapi; call_Notify SIGTERM; call_Notify Interrupt;
         call_device_Wait; received ev; call_uapi_Close; call_device_Close ]
  /\ (logLevel w = device.LogLevelVerbose ->
      filter is_log_line (trace (main w))
      = [ debug "Starting wireguard-go version %s" [device.AStr (Version w)];
          debug "Device started" [];
          debug "UAPI listener started" [];
          debug "Shutting down" [] ]).
Proof.
  intros Hi Hfg H1 H2 HL Hsel. cbv zeta.
  destruct (main_shape Hi) as (t1' & r & H1' & Hs).
  rewrite H1 in H1'. inversion H1'; subst t1' r. clear H1'.
  cbv zeta in Hs. destruct Hs as (t2' & r' & H2' & Hs).
  rewrite H2 in H2'. inversion H2'; subst t2' r'. clear H2'.
  rewrite Hfg in Hs. cbn [negb] in Hs.
  pose proof (runInPlace_cases w (final_name n (Ok tdev))
                (device.NewLogger (logLevel w)
                   ("(" ++ final_name n (Ok tdev) ++ ") "))
                tdev fileUAPI) as Hr.
  cbv zeta in Hr. rewrite HL, Hsel in Hr. rewrite Hr in Hs.
  pose proof (start_is_setup w n H1 H2) as Hpre.
  pose proof (start_logs w n H1 H2) as Hlog. cbv zeta in Hlog.
  unfold exit_status, trace in *. rewrite Hs, fst_bind, snd_bind.
  cbn [fst snd].
  split; [reflexivity|]. split.
  - rewrite filter_app, (@filter_quiet _ _ _ setup_not_engine Hpre).
    cbn [app filter is_engine_step].
    repeat (rewrite ?filter_app, ?logf_quiet by reflexivity;
            cbn [app filter is_engine_step]).
    reflexivity.
  - intros Hv. rewrite filter_app, Hlog. rewrite Hv.
    change (device.NewLogger device.LogLevelVerbose ?p)
      with (device.mkLogger (device.Printf ("DEBUG: " ++ p))
                            (device.Printf ("ERROR: " ++ p))).
    reflexivity.
Qed.

Lemma foreground_run_witness :
  exit_status
    (main (world_of ["wireguard-go"; "-f"; "wg0"] [("LOG_LEVEL", "debug")] tun0))
  = Exited ExitSetupSuccess.
Proof.
  apply (@foreground_run
           (world_of ["wireguard-go"; "-f"; "wg0"] [("LOG_LEVEL", "debug")] tun0)
           true "wg0" [call_CreateTUN "wg0" 1420] tun0
           [call_UAPIOpen "utun7"] (Handle 11)
           (mkListener [Ok 1; Ok 2; Err (ErrOther "closed")])
           (from_term SIGTERM)).
  - apply invoked_foreground with "wireguard-go" "-f";
      [reflexivity | left; reflexivity].
  - reflexivity.
  - reflexivity.
  - reflexivity.
  - reflexivity.
  - reflexivity.
Defined.

(** * The child of a relaunch *)

Lemma lookup_env_bound envs extra key :
  binds envs key = true ->
  lookup_env (envs ++ extra) key = lookup_env envs key.
Proof.
  induction envs as [|s rest IH]; simpl; [discriminate|].
  destruct (cut_at_equals s) as [[k v]|]; [|exact IH].
  destruct (k == key); simpl; [reflexivity|exact IH].
Qed.

Lemma lookup_env_unbound envs extra key :
  binds envs key = false ->
  lookup_env (envs ++ extra) key = lookup_env extra key.
Proof.
  induction envs as [|s rest IH]; simpl; [reflexivity|].
  destruct (cut_at_equals s) as [[k v]|]; [|exact IH].
  destruct (k == key); simpl; [discriminate|exact IH].
Qed.

(** What the child of a relaunch reads for the foreground marker: the entry
    WG_PROCESS_FOREGROUND=1 that [main] appends is read only when the
    parent's environment has no entry for the marker; an entry of the parent
    comes first and is the one the child reads. *)
Lemma marker_of_child w path argv attr :
  In (call_StartProcess path argv attr) (trace (main w)) ->
  os_Getenv (child_world w argv attr) ENV_WG_PROCESS_FOREGROUND
  = if binds (os_Environ w) ENV_WG_PROCESS_FOREGROUND
    then lookup_env (os_Environ w) ENV_WG_PROCESS_FOREGROUND
    else "1".
Proof.
  intros Hin.
  destruct (main_StartProcess w path argv attr Hin)
    as [_ (tdev & fileUAPI & _ & _ & _ & _ & Henv)].
  unfold child_world; cbn [os_Getenv]. unfold Getenv_in.
  cbn [String.eqb ENV_WG_PROCESS_FOREGROUND Ascii.eqb]. rewrite Henv.
  destruct (binds (os_Environ w) ENV_WG_PROCESS_FOREGROUND) eqn:Hb.
  - now apply lookup_env_bound.
  - rewrite (lookup_env_unbound _ _ _ Hb). reflexivity.
Qed.

(** A parent that reads its environment as the runtime does and has an entry
    for the marker hands the same reading to its child, which therefore is
    not told to stay in the foreground either. *)
Lemma marker_shadowed w path argv attr :
  In (call_StartProcess path argv attr) (trace (main w)) ->
  os_Getenv w ENV_WG_PROCESS_FOREGROUND
  = Getenv_in (os_Environ w) ENV_WG_PROCESS_FOREGROUND ->
  binds (os_Environ w) ENV_WG_PROCESS_FOREGROUND = true ->
  os_Getenv (child_world w argv attr) ENV_WG_PROCESS_FOREGROUND
  = os_Getenv w ENV_WG_PROCESS_FOREGROUND
  /\ os_Getenv (child_world w argv attr) ENV_WG_PROCESS_FOREGROUND <> "1".
Proof.
  intros Hin Hget Hb.
  pose proof (marker_of_child w path argv attr Hin) as Hc. rewrite Hb in Hc.
  assert (E : os_Getenv (child_world w argv attr) ENV_WG_PROCESS_FOREGROUND
              = os_Getenv w ENV_WG_PROCESS_FOREGROUND).
  { rewrite Hc, Hget. reflexivity. }
  split; [exact E|]. rewrite E.
  exact (proj1 (main_StartProcess w path argv attr Hin)).
Qed.

(** C2.  The entry WG_PROCESS_FOREGROUND=1 is appended to the child's
    environment so that the child does not enter the relaunch branch
    (line 184).  Started as [wireguard-go wg0] with WG_PROCESS_FOREGROUND=0
    in its environment, the process relaunches itself with an environment
    that holds the marker twice, first with 0 and last with 1; the child
    reads 0, runs no engine and relaunches again, with the same reading for
    its own child. *)
Theorem relaunched_child_relaunches_again :
  os_Getenv world_marker_0 ENV_WG_PROCESS_FOREGROUND
  = Getenv_in (os_Environ world_marker_0) ENV_WG_PROCESS_FOREGROUND
  /\ In (call_StartProcess "/usr/bin/wireguard-go" ["wireguard-go"; "wg0"]
           attr_marker_0)
        (trace (main world_marker_0))
  /\ In "WG_PROCESS_FOREGROUND=1" (Env attr_marker_0)
  /\ os_Getenv child_marker_0 ENV_WG_PROCESS_FOREGROUND = "0"
  /\ In (call_StartProcess "/usr/bin/wireguard-go" ["wireguard-go"; "wg0"]
           attr_child_marker_0)
        (trace (main child_marker_0))
  /\ filter is_engine_step (trace (main child_marker_0)) = []
  /\ os_Getenv
       (child_world child_marker_0 ["wireguard-go"; "wg0"] attr_child_marker_0)
       ENV_WG_PROCESS_FOREGROUND = "0".
Proof.
  split; [reflexivity|]. split; [vm_compute; intuition|].
  split; [simpl; intuition|]. split; [reflexivity|].
  split; [vm_compute; intuition|]. split; reflexivity.
Qed.

(** A parent whose environment has no entry for the marker gets a child that
    reads "1" and makes no step of the relaunch branch. *)
Lemma child_of_unmarked_parent_stays w path argv attr :
  In (call_StartProcess path argv attr) (trace (main w)) ->
  binds (os_Environ w) ENV_WG_PROCESS_FOREGROUND = false ->
  os_Getenv (child_world w argv attr) ENV_WG_PROCESS_FOREGROUND = "1"
  /\ filter is_relaunch_step (trace (main (child_world w argv attr))) = [].
Proof.
  intros Hin Hb.
  pose proof (marker_of_child w path argv attr Hin) as Hc. rewrite Hb in Hc.
  split; [exact Hc|].
  exact (proj1 (proj1 foreground_marker_never_relaunches _ Hc)).
Qed.
